(** * ETL/bank_projects.py: a shallow embedding and its verified properties

    The script scrapes a table of banks from a web page ([extract]), adds
    three currency columns ([transform]) and stores the frame as a CSV file
    and as a database table ([load_to_db]).

    The embedding follows the Python text line by line.  The libraries the
    script calls are modelled by what they compute on the values the script
    hands them (the text that [to_csv] writes for a frame is not modelled):
    - Python [str] is [string]; a character is a code point below 256;
    - Python [float] and numpy's [float64] are IEEE-754 binary64 numbers,
      taken from the standard library's [SpecFloat] with [prec = 53] and
      [emax = 1024];
    - a BeautifulSoup document is a tree of tags and text ([Soup.node]);
    - a pandas [DataFrame] is an ordered list of named columns;
    - exceptions are values of [Py.exception], threaded by an error monad. *)

From Stdlib Require Import ZArith List String Ascii Bool.
From Stdlib Require Import Floats.SpecFloat.
From stdpp Require Import base gmap strings list fin_maps.

Set Warnings "-register-all".
Local Open Scope string_scope.
Local Open Scope list_scope.

(** ** Python values, exceptions and string methods *)

Module Py.

Inductive exception :=
| ValueError (msg : string)
| AttributeError
| IndexError
| KeyError (key : string)
| TypeError
| FileNotFoundError
| OperationalError.

Inductive result (A : Type) :=
| OK (a : A)
| Raise (e : exception).
Arguments OK {A} a.
Arguments Raise {A} e.

Definition bind {A B} (r : result A) (k : A -> result B) : result B :=
  match r with
  | OK a => k a
  | Raise e => Raise e
  end.

Definition ord (c : ascii) : Z := Z.of_N (N_of_ascii c).

Definition between (lo hi : Z) (c : ascii) : bool :=
  (lo <=? ord c)%Z && (ord c <=? hi)%Z.

(** [str.isspace] on one character, for code points below 256:
    TAB..CR, FS..US, SPACE, NEL (0x85) and NBSP (0xA0). *)
Definition isspace (c : ascii) : bool :=
  between 9 13 c || between 28 32 c || (ord c =? 133)%Z || (ord c =? 160)%Z.

Fixpoint lstrip (l : list ascii) : list ascii :=
  match l with
  | c :: t => if isspace c then lstrip t else l
  | [] => []
  end.

Definition rstrip (l : list ascii) : list ascii := rev (lstrip (rev l)).

(** [s.strip()] *)
Definition strip (s : string) : string :=
  string_of_list_ascii (rstrip (lstrip (list_ascii_of_string s))).

Definition newline : ascii := ascii_of_nat 10.

(** [s.replace('\n', '')] *)
Definition replace_newline (s : string) : string :=
  string_of_list_ascii
    (List.filter (fun c => negb (Ascii.eqb c newline))
                 (list_ascii_of_string s)).

End Py.

Export Py.

#[global] Instance result_ret : MRet Py.result := @Py.OK.
#[global] Instance result_bind : MBind Py.result :=
  fun A B k r => Py.bind r k.

(** ** binary64 arithmetic, numpy's rounding and Python's [float(str)] *)

Module F64.

Definition prec : Z := 53.
Definition emax : Z := 1024.

Definition mul : spec_float -> spec_float -> spec_float := SFmul prec emax.
Definition div : spec_float -> spec_float -> spec_float := SFdiv prec emax.

(** The binary64 number nearest to an integer (ties to even). *)
Definition of_Z (z : Z) : spec_float := binary_normalize prec emax z 0 false.

(** C's [rint] in the default rounding mode: the nearest integer, ties to
    even, keeping the sign of a zero result. *)
Definition rint (x : spec_float) : spec_float :=
  match x with
  | S754_finite s m (Zneg k) =>
      let d := Z.pow 2 (Zpos k) in
      let q := Z.div (Zpos m) d in
      let r := Z.modulo (Zpos m) d in
      let q' := match Z.compare (2 * r) d with
                | Lt => q
                | Gt => Z.succ q
                | Eq => if Z.even q then q else Z.succ q
                end in
      binary_normalize prec emax (if s then Z.opp q' else q') 0 s
  | _ => x
  end.

(** [np.round(x, decimals)] for a float and [decimals > 0]: numpy multiplies
    by [10**decimals], calls [rint] and divides again. *)
Definition np_round (x : spec_float) (decimals : Z) : spec_float :=
  let f := of_Z (Z.pow 10 decimals) in
  div (rint (mul x f)) f.

(** [pd.isna] on a float. *)
Definition is_nan (x : spec_float) : bool :=
  match x with
  | S754_nan => true
  | _ => false
  end.

(** *** [float(s)] for a string [s] *)

Definition is_digit (c : ascii) : bool := between 48 57 c.
Definition digit_val (c : ascii) : Z := (ord c - 48)%Z.

(** White space that [float] skips at both ends: the C locale's, and the
    non-ASCII spaces, which CPython first rewrites to a blank. *)
Definition is_cspace (c : ascii) : bool :=
  between 9 13 c || (ord c =? 32)%Z || (ord c =? 133)%Z || (ord c =? 160)%Z.

Fixpoint lskip (l : list ascii) : list ascii :=
  match l with
  | c :: t => if is_cspace c then lskip t else l
  | [] => []
  end.

Definition skip_space (l : list ascii) : list ascii :=
  rev (lskip (rev (lskip l))).

Definition underscore : ascii := "_"%char.

(** PEP 515: an underscore is allowed only between two digits; the
    underscores are dropped before the number is read.  [prev] is the
    character before the head of [l], if any. *)
Fixpoint drop_underscores (prev : option ascii) (l : list ascii)
  : option (list ascii) :=
  match l with
  | [] =>
      match prev with
      | Some p => if Ascii.eqb p underscore then None else Some []
      | None => Some []
      end
  | c :: t =>
      let prev_digit := match prev with Some p => is_digit p | None => false end in
      let prev_under :=
        match prev with Some p => Ascii.eqb p underscore | None => false end in
      if Ascii.eqb c underscore then
        if prev_digit then drop_underscores (Some c) t else None
      else if prev_under && negb (is_digit c) then None
      else option_map (cons c) (drop_underscores (Some c) t)
  end.

(** Leading decimal digits of [l]: their value on top of [acc], their number
    on top of [n], and the rest of [l]. *)
Fixpoint digits (acc n : Z) (l : list ascii) : Z * Z * list ascii :=
  match l with
  | c :: t =>
      if is_digit c then digits (10 * acc + digit_val c)%Z (Z.succ n) t
      else (acc, n, l)
  | [] => (acc, n, l)
  end.

Definition sign (l : list ascii) : bool * list ascii :=
  match l with
  | c :: t =>
      if Ascii.eqb c "-"%char then (true, t)
      else if Ascii.eqb c "+"%char then (false, t)
      else (false, l)
  | [] => (false, l)
  end.

Definition is_e (c : ascii) : bool := Ascii.eqb c "e"%char || Ascii.eqb c "E"%char.

(** The exponent part: [e], a sign and at least one digit; when it is
    malformed nothing is consumed. *)
Definition exponent (l : list ascii) : Z * list ascii :=
  match l with
  | c :: t =>
      if is_e c then
        let '(neg, t1) := sign t in
        let '(v, n, t2) := digits 0 0 t1 in
        if (n =? 0)%Z then (0%Z, l)
        else ((if neg then Z.opp v else v), t2)
      else (0%Z, l)
  | [] => (0%Z, l)
  end.

(** The number [m * 10^e] rounded to binary64 (ties to even). *)
Definition of_decimal (neg : bool) (m e : Z) : spec_float :=
  match m with
  | Zpos p =>
      match e with
      | Zneg k =>
          SFdiv prec emax (S754_finite neg p 0)
                (S754_finite false (Pos.pow 10 k) 0)
      | _ => binary_normalize prec emax
               ((if neg then Z.opp m else m) * Z.pow 10 e) 0 neg
      end
  | _ => S754_zero neg
  end.

(** A decimal literal: digits with an optional point, at least one digit,
    then an optional exponent.  Returns the value and the unread rest. *)
Definition decimal (neg : bool) (l : list ascii)
  : option (spec_float * list ascii) :=
  let '(v1, n1, r1) := digits 0 0 l in
  let '(v2, n2, r2) :=
    match r1 with
    | c :: t => if Ascii.eqb c "."%char then digits v1 n1 t else (v1, n1, r1)
    | [] => (v1, n1, r1)
    end in
  if (n2 =? 0)%Z then None
  else
    let '(e, r3) := exponent r2 in
    Some (of_decimal neg v2 (e - (n2 - n1)), r3).

Definition lower (c : ascii) : ascii :=
  if between 65 90 c then ascii_of_N (N_of_ascii c + 32) else c.

(** [prefix_ci w l]: the rest of [l] after the word [w], compared without
    regard to case. *)
Fixpoint prefix_ci (w l : list ascii) : option (list ascii) :=
  match w, l with
  | [], _ => Some l
  | a :: w', c :: t => if Ascii.eqb a (lower c) then prefix_ci w' t else None
  | _ :: _, [] => None
  end.

(** [inf], [infinity] and [nan], in any case. *)
Definition inf_or_nan (neg : bool) (l : list ascii)
  : option (spec_float * list ascii) :=
  match prefix_ci (list_ascii_of_string "inf") l with
  | Some r =>
      match prefix_ci (list_ascii_of_string "inity") r with
      | Some r' => Some (S754_infinity neg, r')
      | None => Some (S754_infinity neg, r)
      end
  | None =>
      match prefix_ci (list_ascii_of_string "nan") l with
      | Some r => Some (S754_nan, r)
      | None => None
      end
  end.

(** The whole literal: a sign, then a decimal number or, failing that, an
    infinity or a NaN; nothing may be left over. *)
Definition literal (l : list ascii) : option spec_float :=
  let '(neg, r) := sign l in
  match decimal neg r with
  | Some (x, []) => Some x
  | Some (_, _ :: _) => None
  | None =>
      match inf_or_nan neg r with
      | Some (x, []) => Some x
      | _ => None
      end
  end.

(** [float(s)]: [None] stands for the [ValueError] Python raises. *)
Definition parse (s : string) : option spec_float :=
  match drop_underscores None (list_ascii_of_string s) with
  | Some l => literal (skip_space l)
  | None => None
  end.

End F64.

(** ** BeautifulSoup: the parsed document *)

Module Soup.

(** A parsed document: tags with their children, and the text between
    them.  The document itself is a tag (bs4 names it [[document]]). *)
Inductive node :=
| Tag (name : string) (children : list node)
| NavigableString (s : string).

(** [n.descendants]: everything below [n], in document order. *)
Fixpoint descendants (n : node) : list node :=
  match n with
  | Tag _ cs => flat_map (fun c => c :: descendants c) cs
  | NavigableString _ => []
  end.

Definition is_tag (name : string) (n : node) : bool :=
  match n with
  | Tag m _ => String.eqb m name
  | NavigableString _ => false
  end.

(** [n.find_all(name)] *)
Definition find_all (name : string) (n : node) : list node :=
  List.filter (is_tag name) (descendants n).

(** [n.find(name)], which is also what the attribute [n.name] gives. *)
Definition find (name : string) (n : node) : option node :=
  List.find (is_tag name) (descendants n).

(** [n.text]: the strings below [n], joined. *)
Fixpoint text (n : node) : string :=
  match n with
  | Tag _ cs => fold_right (fun c acc => String.append (text c) acc) "" cs
  | NavigableString s => s
  end.

(** A node at its place in the document: bs4 reaches what was parsed before
    it through [previous_elements], nearest first. *)
Record element := Element { previous_elements : list node; self : node }.

Fixpoint place (before : list node) (l : list node) : list element :=
  match l with
  | n :: t => Element before n :: place (n :: before) t
  | [] => []
  end.

(** [soup.find_all(name)], each result with its place in [soup]. *)
Definition find_all_placed (name : string) (soup : node) : list element :=
  List.filter (fun e => is_tag name (self e))
              (place [soup] (descendants soup)).

(** [e.find_previous(name)] *)
Definition find_previous (name : string) (e : element) : option node :=
  List.find (is_tag name) (previous_elements e).

End Soup.

(** ** pandas: frames, and the reads and writes the script asks for *)

Module Pandas.

(** The Python objects that end up in a cell. *)
Inductive object :=
| PyNone
| PyStr (s : string)
| PyFloat (x : spec_float).

Definition NaN : object := PyFloat S754_nan.

(** [pd.isna] *)
Definition isna (o : object) : bool :=
  match o with
  | PyNone => true
  | PyFloat x => F64.is_nan x
  | PyStr _ => false
  end.

(** A frame is its columns, in order; a column is its label and its cells,
    in row order. *)
Abbreviation DataFrame := (list (string * list object)).

Definition is_float (o : object) : bool :=
  match o with PyFloat _ => true | _ => false end.

Definition is_float_or_none (o : object) : bool :=
  match o with PyFloat _ | PyNone => true | PyStr _ => false end.

(** The dtype inference of the [DataFrame] constructor on one column of
    objects: floats mixed with [None] become a float64 column in which
    [None] is NaN; a column with no float at all, or with a string, stays
    a column of objects. *)
Definition maybe_convert_objects (col : list object) : list object :=
  if forallb is_float_or_none col && existsb is_float col
  then map (fun o => match o with PyNone => NaN | _ => o end) col
  else col.

(** [pd.DataFrame(data, columns=columns)] for a list of dicts: one column
    per label, a key that a dict lacks reads as NaN. *)
Definition DataFrame_of_dicts (data : list (gmap string object))
           (columns : list string) : DataFrame :=
  map (fun c => (c, maybe_convert_objects
                      (map (fun d : gmap string object => default NaN (d !! c)) data)))
      columns.

Definition labelled (key : string) (col : string * list object) : bool :=
  String.eqb (fst col) key.

(** [iter(df[key])]: the cells of the column; with a label carried by
    several columns [df[key]] is a frame, whose iteration gives its column
    labels. *)
Definition iter_getitem (df : DataFrame) (key : string)
  : result (list object) :=
  match List.filter (labelled key) df with
  | [] => Raise (KeyError key)
  | [(_, cells)] => OK cells
  | cols => OK (map (fun _ => PyStr key) cols)
  end.

(** [df[key] = cells]: overwrite the column(s) of that label in place, or
    append a new last column.  (pandas also checks that [cells] has one
    entry per row; the script only assigns lists built from a column.) *)
Definition setitem (df : DataFrame) (key : string) (cells : list object)
  : DataFrame :=
  if existsb (labelled key) df
  then map (fun col => if labelled key col then (fst col, cells) else col) df
  else df ++ [(key, cells)].

(** The files pandas can read, each as the frame [pd.read_csv] parses from
    it ([read_csv] never gives two columns the same label). *)
Abbreviation files := (gmap string DataFrame).

Definition read_csv (fs : files) (path : string) : result DataFrame :=
  match fs !! path with
  | Some df => OK df
  | None => Raise FileNotFoundError
  end.

(** [df.set_index(key)]: the index cells, and the other columns. *)
Definition set_index (df : DataFrame) (key : string)
  : result (list object * DataFrame) :=
  match List.find (labelled key) df with
  | Some (_, index) =>
      OK (index, List.filter (fun col => negb (labelled key col)) df)
  | None => Raise (KeyError key)
  end.

(** A Python dict built from key/value pairs, a later pair overriding an
    earlier one.  Only [str] keys are kept: the script looks up no other. *)
Definition dict_of_pairs (kvs : list (object * object)) : gmap string object :=
  fold_left (fun d kv => match fst kv with
                         | PyStr k => <[k := snd kv]> d
                         | _ => d
                         end) kvs ∅.

(** [indexed.to_dict()[key]]: the column as a dict from index to cell. *)
Definition to_dict_getitem (indexed : list object * DataFrame) (key : string)
  : result (gmap string object) :=
  match List.find (labelled key) (snd indexed) with
  | Some (_, cells) => OK (dict_of_pairs (combine (fst indexed) cells))
  | None => Raise (KeyError key)
  end.

(** [d[key]] *)
Definition dict_getitem (d : gmap string object) (key : string)
  : result object :=
  match d !! key with
  | Some v => OK v
  | None => Raise (KeyError key)
  end.

(** [x * y] on cells: only two floats multiply. *)
Definition py_mul (x y : object) : result spec_float :=
  match x, y with
  | PyFloat a, PyFloat b => OK (F64.mul a b)
  | _, _ => Raise TypeError
  end.

(** *** The database behind [to_sql] *)

(** What SQLite stores in a cell: nothing, a text, a number, or the text it
    writes for a number that is put into a column of texts. *)
Inductive sql_value :=
| NULL
| TEXT (s : string)
| REAL (x : spec_float)
| TEXT_OF_REAL (x : spec_float).

(** pandas declares a column REAL when its cells, [None] apart, are floats,
    and there is one; every other column of the objects here is TEXT. *)
Definition real_column (cells : list object) : bool :=
  forallb is_float_or_none cells && existsb is_float cells.

(** A cell as [to_sql] stores it in a column that is REAL or not: pandas
    hands [None] for a missing value, which becomes NULL; SQLite keeps no
    sign for a zero, and turns a number put into a TEXT column into text. *)
Definition to_sql_value (real : bool) (o : object) : sql_value :=
  match o with
  | PyNone => NULL
  | PyStr s => TEXT s
  | PyFloat S754_nan => NULL
  | PyFloat x =>
      if real
      then REAL (match x with S754_zero _ => S754_zero false | _ => x end)
      else TEXT_OF_REAL x
  end.

(** A stored table: its rows, in insertion order, under its column names. *)
Record table := Table { schema : list string; rows : list (list sql_value) }.

(** The records of a frame: row [i] holds cell [i] of every column. *)
Fixpoint records (n : nat) (cols : list (list sql_value))
  : list (list sql_value) :=
  match n with
  | O => []
  | S n' => map (fun c => hd NULL c) cols :: records n' (map (@tl _) cols)
  end.

Definition nrows (df : DataFrame) : nat :=
  match df with
  | (_, cells) :: _ => length cells
  | [] => O
  end.

Definition table_of (df : DataFrame) : table :=
  Table (map fst df)
        (records (nrows df)
                 (map (fun col => map (to_sql_value (real_column (snd col)))
                                      (snd col)) df)).

(** A database file, as the tables it holds under their names (views,
    indexes and triggers are left out). *)
Abbreviation database := (gmap string table).

(** pandas quotes every column label and the table name before any
    statement runs, and refuses an empty one and one with a NUL. *)
Definition identifier_error (name : string) : option exception :=
  if String.eqb name ""
  then Some (ValueError "Empty table or column name specified")
  else if existsb (Ascii.eqb Ascii.zero) (list_ascii_of_string name)
       then Some (ValueError "SQLite identifier cannot contain NULs")
       else None.

Fixpoint check_identifiers (names : list string) : result unit :=
  match names with
  | [] => OK tt
  | name :: rest =>
      match identifier_error name with
      | Some e => Raise e
      | None => check_identifiers rest
      end
  end.

(** SQLite compares the names of tables and of columns without regard to
    the case of ASCII letters. *)
Definition sql_name (label : string) : string :=
  string_of_list_ascii (map F64.lower (list_ascii_of_string label)).

(** Names that SQLite keeps for itself. *)
Definition reserved (name : string) : bool :=
  String.prefix "sqlite_" (sql_name name).

(** The database holds a table of that name, letter case apart. *)
Definition taken (name : string) (con : database) : bool :=
  existsb (fun entry => String.eqb (sql_name (fst entry)) (sql_name name))
          (map_to_list con).

(** The columns that [CREATE TABLE] accepts: at least one, at most 2000,
    and no two of the same SQL name. *)
Definition creatable (df : DataFrame) : bool :=
  match df with
  | [] => false
  | _ :: _ =>
      (length df <=? 2000)%nat
      && bool_decide (NoDup (map (fun col => sql_name (fst col)) df))
  end.

(** [CREATE TABLE] and the [INSERT] of the rows: the result, and the
    database as it is then. *)
Definition create_table (df : DataFrame) (name : string) (con : database)
  : result unit * database :=
  if creatable df && negb (reserved name) && negb (taken name con)
  then (OK tt, <[name := table_of df]> con)
  else (Raise OperationalError, con).

(** [df.to_sql(name, con, if_exists='replace', index=False)]: the result,
    and the database as it is then.  pandas looks for a table of exactly
    that name and drops it, which is done for good, before it creates the
    new one. *)
Definition to_sql (df : DataFrame) (name : string) (con : database)
  : result unit * database :=
  match check_identifiers (map fst df ++ [name]) with
  | Raise e => (Raise e, con)
  | OK _ =>
      match con !! name with
      | Some _ => create_table df name (delete name con)
      | None => create_table df name con
      end
  end.

End Pandas.

Export Soup Pandas.

(** ** The script *)

(** [l[i]] on a Python list *)
Definition list_getitem {A} (l : list A) (i : nat) : result A :=
  match nth_error l i with
  | Some a => OK a
  | None => Raise IndexError
  end.

(** [o.attr] on an object that may be [None] *)
Definition attribute {A} (o : option A) : result A :=
  match o with
  | Some a => OK a
  | None => Raise AttributeError
  end.

Definition heading : string := "By market capitalization".

(** Lines 41-44: the first table whose previous [h2] carries the heading. *)
Fixpoint find_target (tables : list element) : result (option node) :=
  match tables with
  | [] => OK None
  | table :: rest =>
      h2 ← attribute (find_previous "h2" table);
      span ← attribute (find "span" h2);
      if String.eqb (text span) heading then OK (Some (self table))
      else find_target rest
  end.

(** Lines 57-60: [float(mc_usd)], or [None] on [ValueError]. *)
Definition try_float (mc_usd : string) : object :=
  match F64.parse mc_usd with
  | Some x => PyFloat x
  | None => PyNone
  end.

(** Lines 56-60: the market cap read off the text of a cell. *)
Definition parse_market_cap (cell_text : string) : object :=
  let mc_usd := replace_newline (strip cell_text) in
  try_float mc_usd.

(** Lines 52-61: the loop over the rows of the table. *)
Fixpoint extract_rows (rows : list node) (table_attribs : list string)
  : result (list (gmap string object)) :=
  match rows with
  | [] => OK []
  | row :: rest =>
      let cols := find_all "td" row in
      if (2 <=? length cols)%nat then
        c1 ← list_getitem cols 1;
        let name := strip (text c1) in
        c2 ← list_getitem cols 2;
        let mc_usd := parse_market_cap (text c2) in
        k0 ← list_getitem table_attribs 0;
        k1 ← list_getitem table_attribs 1;
        data ← extract_rows rest table_attribs;
        OK (<[k1 := mc_usd]> (<[k0 := PyStr name]> ∅) :: data)
      else extract_rows rest table_attribs
  end.

(** Lines 30-64.  [soup] is the document that BeautifulSoup parsed from the
    response; fetching and parsing it (lines 35-36) happen before. *)
Definition extract (soup : node) (table_attribs : list string)
  : result DataFrame :=
  target_table ← find_target (find_all_placed "tbody" soup);
  match target_table with
  | None => Raise (ValueError "Could not find the target table on the page.")
  | Some target_table =>
      let rows := tl (find_all "tr" target_table) in
      data ← extract_rows rows table_attribs;
      OK (DataFrame_of_dicts data table_attribs)
  end.

(** Lines 78-80, one of them: the list comprehension
    [[np.round(x * exchange_rate_dict[currency], 2) for x in df['MC_USD_Billion']]]. *)
Fixpoint convert_cells (cells : list object) (exchange_rate_dict : gmap string object)
         (currency : string) : result (list object) :=
  match cells with
  | [] => OK []
  | x :: rest =>
      rate ← dict_getitem exchange_rate_dict currency;
      product ← py_mul x rate;
      converted ← convert_cells rest exchange_rate_dict currency;
      OK (PyFloat (F64.np_round product 2) :: converted)
  end.

Definition convert (df : DataFrame) (exchange_rate_dict : gmap string object)
           (currency : string) : result (list object) :=
  cells ← iter_getitem df "MC_USD_Billion";
  convert_cells cells exchange_rate_dict currency.

(** Lines 74-75: the rates, as a dict from currency to rate. *)
Definition read_exchange_rate_dict (fs : files) (csv_path : string)
  : result (gmap string object) :=
  exchange_rate ← read_csv fs csv_path;
  indexed ← set_index exchange_rate "Currency";
  to_dict_getitem indexed "Rates".

(** Lines 67-82. *)
Definition transform (df : DataFrame) (fs : files) (csv_path : string)
  : result DataFrame :=
  exchange_rate_dict ← read_exchange_rate_dict fs csv_path;
  gbp ← convert df exchange_rate_dict "GBP";
  let df := setitem df "MC_GBP_Billion" gbp in
  eur ← convert df exchange_rate_dict "EUR";
  let df := setitem df "MC_EUR_Billion" eur in
  inr ← convert df exchange_rate_dict "INR";
  let df := setitem df "MC_INR_Billion" inr in
  OK df.

(** Lines 91-94. *)
Definition load_to_db (df : DataFrame) (sql_connection : database)
           (table_name : string) : result unit * database :=
  to_sql df table_name sql_connection.

(** The constants of the script (lines 11-16 and 109). *)
Definition exchange_rate_csv_path : string := "exchange_rate.csv".
Definition table_name : string := "Largest_banks".
Definition table_attribs : list string := ["Name"; "MC_USD_Billion"].

(** ** The rest of the script: the log, the files it writes and the run *)

(** The other constants of the script (lines 13-16 and 130-134). *)
Definition output_csv_path : string := "./Largest_banks_data.csv".
Definition db_name : string := "Banks.db".
Definition log_file : string := "code_log.txt".
Definition query_statements : list string :=
  ["SELECT * FROM Largest_banks";
   "SELECT AVG(MC_GBP_Billion) FROM Largest_banks";
   "SELECT Name from Largest_banks LIMIT 5"].

(** What [datetime.now()] returns. *)
Record datetime := Datetime {
  year : Z; month : Z; day : Z; hour : Z; minute : Z; second : Z }.


Definition digit_char (d : Z) : ascii := ascii_of_N (Z.to_N (48 + d)).

(** The decimal numeral of [n], no padding, in front of [acc]; [fuel] bounds
    the number of digits after the first. *)
Fixpoint numeral_from (fuel : nat) (n : Z) (acc : string) : string :=
  let acc := String (digit_char (n mod 10)) acc in
  match fuel with
  | O => acc
  | S fuel' => if (n <? 10)%Z then acc else numeral_from fuel' (n / 10) acc
  end.

(** [%Y] *)
Definition numeral (n : Z) : string :=
  numeral_from (Z.to_nat (Z.log2 n)) n "".

(** [%d], [%H], [%M] and [%S]: two digits. *)
Definition two_digits (n : Z) : string :=
  String (digit_char (n / 10)) (String (digit_char (n mod 10)) "").

(** [%h]: the abbreviated name of the month. *)
Definition month_abbr (m : Z) : string :=
  nth (Z.to_nat (m - 1))
      ["Jan"; "Feb"; "Mar"; "Apr"; "May"; "Jun";
       "Jul"; "Aug"; "Sep"; "Oct"; "Nov"; "Dec"] "".

(** [now.strftime('%Y-%h-%d-%H:%M:%S')] (lines 22-24) *)
Definition strftime (now : datetime) : string :=
  numeral (year now) +:+ "-" +:+ month_abbr (month now) +:+ "-"
  +:+ two_digits (day now) +:+ "-" +:+ two_digits (hour now) +:+ ":"
  +:+ two_digits (minute now) +:+ ":" +:+ two_digits (second now).

(** The string ['\n']. *)
Definition nl : string := String newline "".

(** What [print] wrote: a line of text, or a frame in pandas' layout. *)
Inductive printed :=
| Line (s : string)
| Frame (df : DataFrame).

(** A file written by [to_csv]: the frame it is the CSV text of, and whether
    the text has the index column. *)
Record csv_file := CsvFile { csv_frame : DataFrame; csv_index : bool }.

(** What the script acts on: the text files, the files written by [to_csv],
    the database files, each with its tables, what was printed, and the
    number of times the clock was read.  Each map lists the files of one
    kind by the path the script opens them with; the files are taken to be
    files that can be opened and written. *)
Record world := World {
  text_files : gmap string string;
  csv_files : gmap string csv_file;
  databases : gmap string database;
  console : list printed;
  clock_reads : nat }.

(** A statement of the script: it changes the world, and returns or raises;
    what it did before raising stays done. *)
Definition IO (A : Type) : Type := world -> result A * world.

#[global] Instance io_ret : MRet IO := fun A a w => (OK a, w).
#[global] Instance io_bind : MBind IO :=
  fun A B k m w =>
    match m w with
    | (OK a, w') => k a w'
    | (Raise e, w') => (Raise e, w')
    end.

(** A call of a function that acts on nothing. *)
Definition lift {A} (r : result A) : IO A := fun w => (r, w).

(** [datetime.now()]: the clock gives the time of each reading. *)
Definition datetime_now (clock : nat -> datetime) : IO datetime :=
  fun w =>
    (OK (clock (clock_reads w)),
     World (text_files w) (csv_files w) (databases w) (console w)
           (S (clock_reads w))).

(** [with open(path, 'a') as f: f.write(text)]: a file that is not there
    starts empty. *)
Definition append_text (path text : string) : IO unit :=
  fun w =>
    (OK tt,
     World (<[path := default "" (text_files w !! path) +:+ text]> (text_files w))
           (csv_files w) (databases w) (console w) (clock_reads w)).

(** Lines 19-27. *)
Definition log_progress (clock : nat -> datetime) (message : string) : IO unit :=
  now ← datetime_now clock;
  let timestamp := strftime now in
  append_text log_file (timestamp +:+ " : " +:+ message +:+ nl).

(** [df.to_csv(path, index=index)]: the file is written anew.  Of the file
    only the frame and the flag it was written from are kept, not its
    text. *)
Definition to_csv (df : DataFrame) (path : string) (index : bool) : IO unit :=
  fun w =>
    (OK tt,
     World (text_files w) (<[path := CsvFile df index]> (csv_files w))
           (databases w) (console w) (clock_reads w)).

(** Lines 85-88. *)
Definition load_to_csv (df : DataFrame) (output_path : string) : IO unit :=
  to_csv df output_path false.

(** [sqlite3.connect(name)]: the connection stands for the database file of
    that name, empty when it is not there yet. *)
Definition sqlite3_connect (name : string) : IO string := mret name.

Definition database_of (conn : string) (w : world) : database :=
  default ∅ (databases w !! conn).

(** A statement on a connection: it returns or raises, and leaves the
    database as it is then. *)
Definition on_connection {A} (conn : string)
           (statement : database -> result A * database) : IO A :=
  fun w =>
    (fst (statement (database_of conn w)),
     World (text_files w) (csv_files w)
           (<[conn := snd (statement (database_of conn w))]> (databases w))
           (console w) (clock_reads w)).

(** Lines 91-94, on a connection. *)
Definition load_to_db_on (df : DataFrame) (conn : string) (table_name : string)
  : IO unit :=
  on_connection conn (fun con => load_to_db df con table_name).

(** [print(item)] *)
Definition print (item : printed) : IO unit :=
  fun w =>
    (OK tt,
     World (text_files w) (csv_files w) (databases w) (console w ++ [item])
           (clock_reads w)).

(** SQLite behind [pd.read_sql]: what a statement gives on a database, the
    frame or the exception, and the database as the statement leaves it. *)
Abbreviation sql_engine := (string -> database -> result DataFrame * database).

(** Lines 97-103. *)
Definition run_query (read_sql : sql_engine)
           (query_statement : string) (conn : string) : IO unit :=
  print (Line ("Query: " +:+ query_statement));;
  query_output ← on_connection conn (read_sql query_statement);
  print (Frame query_output);;
  print (Line "").

(** Lines 136-137: the loop over the statements. *)
Fixpoint run_queries (read_sql : sql_engine)
         (queries : list string) (conn : string) : IO unit :=
  match queries with
  | [] => mret tt
  | query :: rest =>
      run_query read_sql query conn;;
      run_queries read_sql rest conn
  end.

(** Lines 105-143: the run.  [soup] is the page at the address of line 11 and
    [fs] holds the rate file; [conn.close()] changes nothing that is kept. *)
Definition main (clock : nat -> datetime) (read_sql : sql_engine)
           (soup : node) (fs : files) : IO unit :=
  log_progress clock "Preliminaries complete. Initiating ETL process";;
  df ← lift (extract soup table_attribs);
  log_progress clock "Data extraction complete. Initiating Transformation process";;
  df ← lift (transform df fs exchange_rate_csv_path);
  log_progress clock "Data transformation complete. Initiating Loading process";;
  load_to_csv df output_csv_path;;
  log_progress clock "Data saved to CSV file";;
  conn ← sqlite3_connect db_name;
  log_progress clock "SQL Connection initiated";;
  load_to_db_on df conn table_name;;
  log_progress clock "Data loaded to Database as a table, Executing queries";;
  run_queries read_sql query_statements conn;;
  log_progress clock "Process Complete";;
  log_progress clock "Server Connection closed".

(** ** The tables of the specification *)

(** A BankRecord: a name and a market cap that may be absent. *)
Abbreviation BankRecord := (string * option spec_float)%type.

Definition cap_object (cap : option spec_float) : object :=
  match cap with
  | Some x => PyFloat x
  | None => PyNone
  end.

(** The dict that line 61 appends for a record. *)
Definition record_dict (r : BankRecord) : gmap string object :=
  <["MC_USD_Billion" := cap_object (snd r)]> (<["Name" := PyStr (fst r)]> ∅).

(** A BankTable: the frame that line 63 builds from the records. *)
Definition BankTable (records : list BankRecord) : DataFrame :=
  DataFrame_of_dicts (map record_dict records) table_attribs.

(** The labels of the columns that [transform] writes. *)
Definition derived_label (label : string) : bool :=
  String.eqb label "MC_GBP_Billion" || String.eqb label "MC_EUR_Billion"
  || String.eqb label "MC_INR_Billion".

(** One converted cell: [np.round(x * rate, 2)]. *)
Definition converted (rate x : spec_float) : object :=
  PyFloat (F64.np_round (F64.mul x rate) 2).

(** ** What the properties are stated with *)

(** *** Records and columns *)

(** The record has a market cap. *)
Definition has_cap (r : BankRecord) : bool :=
  match snd r with
  | Some _ => true
  | None => false
  end.

(** The market cap as a float64 column holds it: NaN when absent. *)
Definition cap_float (r : BankRecord) : spec_float :=
  match snd r with
  | Some x => x
  | None => S754_nan
  end.

(** [holds key cells df]: [df] has a column labelled [key], and every such
    column holds [cells]. *)
Definition holds (key : string) (cells : list object) (df : DataFrame) : Prop :=
  existsb (labelled key) df = true
  /\ Forall (fun col => labelled key col = true -> snd col = cells) df.

(** The first of GBP, EUR and INR, in the order [transform] asks for them,
    that the rates lack. *)
Definition first_absent (d : gmap string object) : option string :=
  List.find (fun c => bool_decide (d !! c = None)) ["GBP"; "EUR"; "INR"].

(** *** Tables of a page *)

(** The label of the heading before a table, when the table has a previous
    [h2] and that [h2] has a [span]. *)
Definition label_of (table : element) : option string :=
  match find_previous "h2" table with
  | Some h2 =>
      match find "span" h2 with
      | Some span => Some (text span)
      | None => None
      end
  | None => None
  end.

(** The loop of lines 41-44 stops at a table that carries the heading or that
    has no label to compare. *)
Definition stops (table : element) : bool :=
  match label_of table with
  | Some label => String.eqb label heading
  | None => true
  end.

(** A row that line 54 retains. *)
Definition retained (row : node) : bool := (2 <=? length (find_all "td" row))%nat.

(** The record of a row with at least three cells. *)
Definition record_of_row (row : node) : BankRecord :=
  let cols := find_all "td" row in
  (strip (text (nth 1 cols (NavigableString ""))),
   F64.parse (replace_newline (strip (text (nth 2 cols (NavigableString "")))))).

(** *** Characters of a cell *)











(** [l] neither starts nor ends with a character that [space] holds of. *)
Definition no_outer (space : ascii -> bool) (l : list ascii) : Prop :=
  match l with c :: _ => space c = false | [] => True end
  /\ match rev l with c :: _ => space c = false | [] => True end.

(** *** The scenario of the specification *)

(** The scenario of the specification: rates 0.8, 0.93 and 82.95, and one
    record, Bank A, with a market cap of 100.0. *)
Definition scenario_rates : DataFrame :=
  [("Currency", [PyStr "GBP"; PyStr "EUR"; PyStr "INR"]);
   ("Rates", [PyFloat (F64.of_decimal false 8 (-1));
              PyFloat (F64.of_decimal false 93 (-2));
              PyFloat (F64.of_decimal false 8295 (-2))])].

Definition scenario_files : files := {[ exchange_rate_csv_path := scenario_rates ]}.

Definition scenario_table : DataFrame := BankTable [("Bank A", Some (F64.of_Z 100))].

Definition scenario_result : DataFrame :=
  [("Name", [PyStr "Bank A"]);
   ("MC_USD_Billion", [PyFloat (F64.of_Z 100)]);
   ("MC_GBP_Billion", [PyFloat (F64.of_Z 80)]);
   ("MC_EUR_Billion", [PyFloat (F64.of_Z 93)]);
   ("MC_INR_Billion", [PyFloat (F64.of_Z 8295)])].

(** *** Rounding to two decimals *)

(** What numpy computes for [np.round(p, 2)], written out: the product of
    [p] and 100, the nearest integer to it (a tie going to the even one),
    and the quotient by 100, each of the three rounded to binary64. *)
Definition rint_hundredths (p : spec_float) : spec_float :=
  SFdiv 53 1024 (F64.rint (SFmul 53 1024 p (F64.of_Z 100))) (F64.of_Z 100).

(** The integer nearest to [n / d] for [0 <= n] and [0 < d]; a tie goes to
    the even integer, or upwards when [away] holds. *)
Definition nearest (away : bool) (n d : Z) : Z :=
  let q := (n / d)%Z in
  match Z.compare (2 * (n mod d)) d with
  | Lt => q
  | Gt => (q + 1)%Z
  | Eq => if away || Z.odd q then (q + 1)%Z else q
  end.

(** The specification's [round(v, 2)]: the number that [v] stands for,
    rounded to the nearest multiple of 0.01 (a tie going to the even multiple,
    or away from zero when [away] holds: the specification allows either),
    as the binary64 number nearest to that multiple.  This is also what
    Python's own [round(v, 2)] returns, with [away = false]. *)
Definition round_hundredths (away : bool) (v : spec_float) : spec_float :=
  match v with
  | S754_finite s m e =>
      F64.of_decimal s
        match e with
        | Zneg k => nearest away (Zpos m * 100) (Z.pow 2 (Zpos k))
        | _ => (Zpos m * 100 * Z.pow 2 e)%Z
        end (-2)
  | _ => v
  end.

(** A table with a market cap whose products need rounding, and what
    [transform] makes of it with the rates of the scenario. *)
Definition rounding_table : DataFrame :=
  BankTable [("Bank A", Some (F64.of_Z 100));
             ("Bank B", Some (F64.of_decimal false 123456 (-3)))].

Definition rounding_result : DataFrame :=
  [("Name", [PyStr "Bank A"; PyStr "Bank B"]);
   ("MC_USD_Billion",
    [PyFloat (F64.of_Z 100); PyFloat (F64.of_decimal false 123456 (-3))]);
   ("MC_GBP_Billion",
    [PyFloat (F64.of_Z 80); PyFloat (F64.of_decimal false 9876 (-2))]);
   ("MC_EUR_Billion",
    [PyFloat (F64.of_Z 93); PyFloat (F64.of_decimal false 11481 (-2))]);
   ("MC_INR_Billion",
    [PyFloat (F64.of_Z 8295); PyFloat (F64.of_decimal false 1024068 (-2))])].

(** A table with a market cap of 0.5, whose product with the rate 0.93 lies
    just above 0.465, and one with a market cap of 1e307. *)
Definition half_table : DataFrame :=
  BankTable [("Bank A", Some (F64.of_decimal false 5 (-1)))].

Definition huge_table : DataFrame :=
  BankTable [("Bank A", Some (F64.of_decimal false 1 307))].

(** *** Rate files that lack something *)

(** A rate file without GBP, and a target table with no data row. *)
Definition rates_without_GBP : DataFrame :=
  [("Currency", [PyStr "EUR"; PyStr "INR"]);
   ("Rates", [PyFloat (F64.of_decimal false 93 (-2));
              PyFloat (F64.of_decimal false 8295 (-2))])].

Definition files_without_GBP : files :=
  {[ exchange_rate_csv_path := rates_without_GBP ]}.

Definition rates_without_Currency : DataFrame :=
  [("Code", [PyStr "GBP"]); ("Rates", [PyFloat (F64.of_decimal false 8 (-1))])].

Definition rates_without_Rates : DataFrame :=
  [("Currency", [PyStr "GBP"]); ("Rate", [PyFloat (F64.of_decimal false 8 (-1))])].

(** *** Pages *)

(** A page in which the target table, under its heading, has a header row
    and the given rows. *)
Definition td (s : string) : node := Tag "td" [NavigableString s].

Definition target_h2 : node := Tag "h2" [Tag "span" [NavigableString heading]].

Definition header_row : node :=
  Tag "tr" [Tag "th" [NavigableString "Rank"];
            Tag "th" [NavigableString "Bank name"];
            Tag "th" [NavigableString "Market cap (US$ billion)"]].

Definition page (rows : list node) : node :=
  Tag "[document]"
      [Tag "html" [Tag "body" [target_h2;
                               Tag "table" [Tag "tbody" (header_row :: rows)]]]].

(** A page whose only data row has exactly two cells. *)
Definition two_cell_page : node := page [Tag "tr" [td "1"; td "Bank A"]].

(** A page whose only data row has a market cap that is no number. *)
Definition not_available_page : node :=
  page [Tag "tr" [td "1"; td "Bank A"; td "N/A"]].

(** A page with a table before the first heading, then the target table. *)
Definition headless_table_page : node :=
  Tag "[document]"
      [Tag "html"
           [Tag "body"
                [Tag "table" [Tag "tbody" [Tag "tr" [td "List of banks"]]];
                 target_h2;
                 Tag "table"
                     [Tag "tbody"
                          [header_row;
                           Tag "tr" [td "1"; td "Bank A"; td "100.0"]]]]]].

(** A page with a table under another heading before the target table. *)
Definition other_h2 : node :=
  Tag "h2" [Tag "span" [NavigableString "By total assets"]].

Definition other_table : node :=
  Tag "table" [Tag "tbody" [header_row; Tag "tr" [td "1"; td "Bank Z"; td "5.0"]]].

Definition two_tables_page : node :=
  Tag "[document]"
      [Tag "html"
           [Tag "body"
                [other_h2; other_table;
                 target_h2;
                 Tag "table"
                     [Tag "tbody"
                          [header_row;
                           Tag "tr" [td "1"; td "Bank A"; td "100.0"]]]]]].

(** A page with the table under the other heading only. *)
Definition other_table_page : node :=
  Tag "[document]" [Tag "html" [Tag "body" [other_h2; other_table]]].

(** The [i]-th table body of a page, at its place. *)
Definition nth_table (soup : node) (i : nat) : element :=
  nth i (find_all_placed "tbody" soup) (Element [] soup).


(** *** The log and the run *)

(** The line that [log_progress] writes at time [now]. *)
Definition log_line (now : datetime) (message : string) : string :=
  strftime now +:+ " : " +:+ message +:+ nl.

(** The lines of successive calls, the first at clock reading [start]. *)
Fixpoint log_lines (clock : nat -> datetime) (start : nat)
         (messages : list string) : string :=
  match messages with
  | [] => ""
  | message :: rest =>
      log_line (clock start) message +:+ log_lines clock (S start) rest
  end.


(** The messages of the run (lines 106-143), in order. *)
Definition stage_messages : list string :=
  ["Preliminaries complete. Initiating ETL process";
   "Data extraction complete. Initiating Transformation process";
   "Data transformation complete. Initiating Loading process";
   "Data saved to CSV file";
   "SQL Connection initiated";
   "Data loaded to Database as a table, Executing queries";
   "Process Complete";
   "Server Connection closed"].

(** The world after [n] more log lines: only the log and the clock move. *)
Definition logged (clock : nat -> datetime) (n : nat) (messages : list string)
           (w : world) : world :=
  World (<[log_file := default "" (text_files w !! log_file)
                       +:+ log_lines clock (clock_reads w) (firstn n messages)]>
           (text_files w))
        (csv_files w) (databases w) (console w) (n + clock_reads w).

(** What [run_query] prints for a statement that gives [output]. *)
Definition query_report (query : string) (output : DataFrame) : list printed :=
  [Line ("Query: " +:+ query); Frame output; Line ""].

(** A clock, an SQL engine that answers every statement on an existing table
    with its column of names and changes nothing, and an empty world. *)
Definition sample_clock (n : nat) : datetime :=
  Datetime 2026 11 3 9 5 (Z.of_nat n).

Definition sample_read_sql : sql_engine :=
  fun query db =>
    (match db !! table_name with
     | Some t => OK [("Name", map (fun r => match r with
                                           | TEXT s :: _ => PyStr s
                                           | _ => PyNone
                                           end) (rows t))]
     | None => Raise OperationalError
     end, db).

Definition empty_world : world := World ∅ ∅ ∅ [] 0.

(** A page with one complete data row. *)
Definition sample_page : node :=
  page [Tag "tr" [td "1"; td " Bank A "; td "100.0"]].

(** A row that line 54 retains and line 56 cannot read. *)
Definition two_cells (row : node) : bool :=
  (length (find_all "td" row) =? 2)%nat.

(** What [extract] returns once the target table is found. *)
Definition rows_outcome (target_table : node) : result DataFrame :=
  let rows := tl (find_all "tr" target_table) in
  if existsb two_cells rows then Raise IndexError
  else OK (BankTable (map record_of_row (List.filter retained rows))).

(** A text of white space only. *)
Definition blank (s : string) : bool :=
  forallb isspace (list_ascii_of_string s).

(** A character that [replace('\n', '')] keeps. *)
Definition keep (c : ascii) : bool := negb (Ascii.eqb c newline).

(** A rate file with more rows than the script reads: another currency, an
    older rate of GBP above the current one, and the rows in another order. *)
Definition rates_with_more : DataFrame :=
  [("Currency", [PyStr "USD"; PyStr "GBP"; PyStr "INR"; PyStr "EUR"; PyStr "GBP"]);
   ("Rates", [PyFloat (F64.of_Z 1);
              PyFloat (F64.of_decimal false 5 (-1));
              PyFloat (F64.of_decimal false 8295 (-2));
              PyFloat (F64.of_decimal false 93 (-2));
              PyFloat (F64.of_decimal false 8 (-1))])].

(** The run of the loop of lines 136-137 on a database: how it ends, what
    it prints (the report of each statement up to the first one that raises,
    of which only the first line is printed) and the database it leaves. *)
Fixpoint queries_on (read_sql : sql_engine) (queries : list string)
         (db : database) : result unit * list printed * database :=
  match queries with
  | [] => (OK tt, [], db)
  | query :: rest =>
      match read_sql query db with
      | (OK output, db') =>
          let '(r, items, db'') := queries_on read_sql rest db' in
          (r, query_report query output ++ items, db'')
      | (Raise e, db') => (Raise e, [Line ("Query: " +:+ query)], db')
      end
  end.

(** The log after [n] stages of a run that found the log [old] at clock
    reading [start]. *)
Definition log_after (clock : nat -> datetime) (old : string) (start n : nat)
  : string :=
  old +:+ log_lines clock start (firstn n stage_messages).





(** *** Tables and databases *)




Definition mixed_rows : list (list sql_value) :=
  [[TEXT "Bank A"; REAL (F64.of_Z 100); NULL];
   [TEXT "Bank B"; NULL; NULL];
   [TEXT "Bank C"; REAL (S754_zero false); NULL]].



(** ** The error monad *)

Lemma bind_OK {A B} (a : A) (k : A -> result B) : (OK a ≫= k) = k a.
Proof. reflexivity. Qed.

Lemma bind_Raise {A B} (e : exception) (k : A -> result B) :
  (Raise e ≫= k) = Raise e.
Proof. reflexivity. Qed.

Lemma bind_OK_inv {A B} (c : result A) (k : A -> result B) (b : B) :
  (c ≫= k) = OK b -> exists a, c = OK a /\ k a = OK b.
Proof. destruct c as [a|e]; [eauto | discriminate]. Qed.

(** ** Columns of a frame under assignment *)

Section Frames.

Implicit Types (df : DataFrame) (key label : string) (cells : list object).

Lemma labelled_eq key (col : string * list object) :
  labelled key col = true <-> fst col = key.
Proof. unfold labelled. apply String.eqb_eq. Qed.

Lemma labelled_neq key (col : string * list object) :
  labelled key col = false <-> fst col <> key.
Proof. unfold labelled. apply String.eqb_neq. Qed.

(** Assigning to [key] leaves the columns of every other label alone. *)
Lemma filter_setitem_ne df key label cells :
  label <> key ->
  List.filter (labelled label) (setitem df key cells)
  = List.filter (labelled label) df.
Proof.
  intros Hne. unfold setitem.
  destruct (existsb (labelled key) df).
  - induction df as [|col df IH]; simpl; [reflexivity|].
    destruct (labelled key col) eqn:Hk.
    + apply labelled_eq in Hk.
      assert (labelled label col = false) as Hl
          by (apply labelled_neq; congruence).
      assert (labelled label (fst col, cells) = false) as Hl'
          by (apply labelled_neq; simpl; congruence).
      rewrite Hl, Hl'. exact IH.
    + destruct (labelled label col); [f_equal|]; exact IH.
  - rewrite List.filter_app. simpl.
    assert (labelled label (key, cells) = false) as ->
        by (apply labelled_neq; simpl; congruence).
    apply app_nil_r.
Qed.

Lemma iter_getitem_setitem_ne df key label cells :
  label <> key ->
  iter_getitem (setitem df key cells) label = iter_getitem df label.
Proof.
  intros Hne. unfold iter_getitem. now rewrite filter_setitem_ne.
Qed.

Lemma existsb_setitem df key label cells :
  existsb (labelled label) df = true ->
  existsb (labelled label) (setitem df key cells) = true.
Proof.
  intros H. unfold setitem. destruct (existsb (labelled key) df).
  - induction df as [|col df IH]; simpl in *; [discriminate|].
    apply orb_true_iff in H. apply orb_true_iff.
    destruct H as [H|H]; [left|right; auto].
    destruct (labelled key col); [|exact H].
    unfold labelled in *. exact H.
  - rewrite existsb_app, H. reflexivity.
Qed.

Lemma holds_setitem df key cells : holds key cells (setitem df key cells).
Proof.
  unfold holds, setitem. destruct (existsb (labelled key) df) eqn:E.
  - split.
    + induction df as [|col df IH]; simpl in *; [discriminate|].
      destruct (labelled key col) eqn:Hk; simpl.
      * unfold labelled in *. simpl. now rewrite Hk.
      * rewrite Hk. simpl in E. auto.
    + clear E. induction df as [|col df IH]; simpl; constructor; auto.
      destruct (labelled key col) eqn:Hk; [reflexivity|].
      intros Hk'. congruence.
  - split.
    + rewrite existsb_app. simpl.
      unfold labelled at 2. simpl. rewrite String.eqb_refl.
      now rewrite orb_true_r.
    + apply Forall_app. split.
      * apply List.Forall_forall. intros col Hin Hk.
        assert (existsb (labelled key) df = true); [|congruence].
        apply existsb_exists. eauto.
      * constructor; [reflexivity|constructor].
Qed.

Lemma holds_setitem_ne df key label cells cells' :
  label <> key -> holds label cells' df ->
  holds label cells' (setitem df key cells).
Proof.
  intros Hne [Hex Hall]. split; [now apply existsb_setitem|].
  unfold setitem. destruct (existsb (labelled key) df).
  - clear Hex. induction Hall as [|col df Hcol Hall IH]; simpl; constructor; auto.
    destruct (labelled key col) eqn:Hk; [|exact Hcol].
    intros Hl. apply labelled_eq in Hk, Hl. simpl in Hl. congruence.
  - apply Forall_app. split; [exact Hall|].
    constructor; [|constructor].
    intros Hl. apply labelled_eq in Hl. simpl in Hl. congruence.
Qed.

(** Assigning what is already there changes nothing. *)
Lemma setitem_holds df key cells :
  holds key cells df -> setitem df key cells = df.
Proof.
  intros [Hex Hall]. unfold setitem. rewrite Hex. clear Hex.
  induction Hall as [|col df Hcol Hall IH]; simpl; [reflexivity|].
  rewrite IH. f_equal.
  destruct (labelled key col) eqn:Hk; [|reflexivity].
  destruct col as [l c]. simpl in *. now rewrite Hcol.
Qed.

End Frames.

(** ** [transform] *)

(** What a successful [transform] has computed. *)
Lemma transform_OK_inv df fs csv_path df' :
  transform df fs csv_path = OK df' ->
  exists d cells gbp eur inr,
    read_exchange_rate_dict fs csv_path = OK d
    /\ iter_getitem df "MC_USD_Billion" = OK cells
    /\ convert_cells cells d "GBP" = OK gbp
    /\ convert_cells cells d "EUR" = OK eur
    /\ convert_cells cells d "INR" = OK inr
    /\ df' = setitem (setitem (setitem df "MC_GBP_Billion" gbp)
                              "MC_EUR_Billion" eur) "MC_INR_Billion" inr.
Proof.
  unfold transform, convert. intros H.
  apply bind_OK_inv in H. destruct H as (d & Hd & H).
  apply bind_OK_inv in H. destruct H as (gbp & Hgbp & H).
  apply bind_OK_inv in Hgbp. destruct Hgbp as (cells & Hcells & Hgbp).
  apply bind_OK_inv in H. destruct H as (eur & Heur & H).
  apply bind_OK_inv in H. destruct H as (inr & Hinr & H).
  rewrite !iter_getitem_setitem_ne in Hinr by discriminate.
  rewrite !iter_getitem_setitem_ne in Heur by discriminate.
  rewrite Hcells in Heur, Hinr. rewrite !bind_OK in Heur, Hinr.
  injection H as <-.
  exists d, cells, gbp, eur, inr. repeat split; assumption.
Qed.

Lemma transform_OK df fs csv_path d cells gbp eur inr :
  read_exchange_rate_dict fs csv_path = OK d ->
  iter_getitem df "MC_USD_Billion" = OK cells ->
  convert_cells cells d "GBP" = OK gbp ->
  convert_cells cells d "EUR" = OK eur ->
  convert_cells cells d "INR" = OK inr ->
  transform df fs csv_path
  = OK (setitem (setitem (setitem df "MC_GBP_Billion" gbp)
                         "MC_EUR_Billion" eur) "MC_INR_Billion" inr).
Proof.
  intros Hd Hcells Hgbp Heur Hinr. unfold transform, convert.
  rewrite Hd, bind_OK, Hcells, bind_OK, Hgbp, bind_OK.
  rewrite !iter_getitem_setitem_ne by discriminate.
  rewrite Hcells, bind_OK, Heur, bind_OK.
  rewrite !iter_getitem_setitem_ne by discriminate.
  rewrite Hcells, bind_OK, Hinr, bind_OK.
  reflexivity.
Qed.

Lemma convert_cells_length cells d currency out :
  convert_cells cells d currency = OK out -> length out = length cells.
Proof.
  revert out. induction cells as [|x cells IH]; simpl; intros out H.
  - now injection H as <-.
  - apply bind_OK_inv in H. destruct H as (rate & _ & H).
    apply bind_OK_inv in H. destruct H as (product & _ & H).
    apply bind_OK_inv in H. destruct H as (rest & Hrest & H).
    injection H as <-. simpl. f_equal. now apply IH.
Qed.

Lemma filter_setitem (f : string -> bool) (df : DataFrame) key cells :
  f key = false ->
  List.filter (fun col => f (fst col)) (setitem df key cells)
  = List.filter (fun col => f (fst col)) df.
Proof.
  intros Hf. unfold setitem. destruct (existsb (labelled key) df).
  - induction df as [|col df IH]; simpl; [reflexivity|].
    destruct (labelled key col) eqn:Hk; simpl.
    + apply labelled_eq in Hk. rewrite Hk, Hf. exact IH.
    + destruct (f (fst col)); [f_equal|]; exact IH.
  - rewrite List.filter_app. simpl. rewrite Hf. apply app_nil_r.
Qed.

Lemma not_derived_not_labelled (df : DataFrame) key :
  derived_label key = true ->
  existsb (fun col => derived_label (fst col)) df = false ->
  existsb (labelled key) df = false.
Proof.
  intros Hkey. induction df as [|col df IH]; simpl; [reflexivity|].
  intros H. apply orb_false_iff in H. destruct H as [Hcol Hdf].
  rewrite (IH Hdf), orb_false_r.
  apply labelled_neq. intros Heq. congruence.
Qed.

(** A frame with none of the derived columns gets them appended. *)
Lemma setitem_derived_append (df : DataFrame) gbp eur inr :
  existsb (fun col => derived_label (fst col)) df = false ->
  setitem (setitem (setitem df "MC_GBP_Billion" gbp) "MC_EUR_Billion" eur)
          "MC_INR_Billion" inr
  = df ++ [("MC_GBP_Billion", gbp); ("MC_EUR_Billion", eur);
           ("MC_INR_Billion", inr)].
Proof.
  intros H.
  pose proof (not_derived_not_labelled df "MC_GBP_Billion" eq_refl H) as Hg.
  pose proof (not_derived_not_labelled df "MC_EUR_Billion" eq_refl H) as He.
  pose proof (not_derived_not_labelled df "MC_INR_Billion" eq_refl H) as Hi.
  unfold setitem at 3. rewrite Hg.
  unfold setitem at 2. rewrite existsb_app, He. simpl.
  unfold setitem. rewrite !existsb_app, Hi. simpl.
  rewrite <- !app_assoc. reflexivity.
Qed.

(** C8: applying [transform] a second time, with the same rate file, to a
    table it has already transformed gives that table again: the three
    derived columns, computed from the unchanged MC_USD_Billion column and
    the same rates, get identical values. *)
Theorem transform_idempotent (df : DataFrame) fs csv_path df' :
  transform df fs csv_path = OK df' ->
  transform df' fs csv_path = OK df'.
Proof.
  intros H.
  destruct (transform_OK_inv _ _ _ _ H)
    as (d & cells & gbp & eur & inr & Hd & Hc & Hg & He & Hi & ->).
  rewrite (transform_OK _ _ _ d cells gbp eur inr); auto.
  - f_equal.
    rewrite (setitem_holds _ "MC_GBP_Billion").
    + rewrite (setitem_holds _ "MC_EUR_Billion").
      * apply setitem_holds, holds_setitem.
      * apply holds_setitem_ne; [discriminate|]. apply holds_setitem.
    + do 2 (apply holds_setitem_ne; [discriminate|]). apply holds_setitem.
  - rewrite !iter_getitem_setitem_ne by discriminate. exact Hc.
Qed.

(** C10: [transform] leaves every column that is not one of the three
    derived ones as it was, in place and cell by cell, so the Name and
    MC_USD_Billion values, the number of records and their order are
    unchanged; on a table without derived columns it only appends the three
    of them, each with one cell per record. *)
Theorem transform_keeps_columns (df : DataFrame) fs csv_path df' :
  transform df fs csv_path = OK df' ->
  List.filter (fun col => negb (derived_label (fst col))) df'
  = List.filter (fun col => negb (derived_label (fst col))) df
  /\ iter_getitem df' "Name" = iter_getitem df "Name"
  /\ iter_getitem df' "MC_USD_Billion" = iter_getitem df "MC_USD_Billion"
  /\ (existsb (fun col => derived_label (fst col)) df = false ->
      exists cells gbp eur inr,
        iter_getitem df "MC_USD_Billion" = OK cells
        /\ length gbp = length cells /\ length eur = length cells
        /\ length inr = length cells
        /\ df' = df ++ [("MC_GBP_Billion", gbp); ("MC_EUR_Billion", eur);
                        ("MC_INR_Billion", inr)]).
Proof.
  intros H.
  destruct (transform_OK_inv _ _ _ _ H)
    as (d & cells & gbp & eur & inr & Hd & Hc & Hg & He & Hi & ->).
  split; [|split; [|split]].
  - rewrite !(filter_setitem (fun l => negb (derived_label l))) by reflexivity.
    reflexivity.
  - now rewrite !iter_getitem_setitem_ne by discriminate.
  - now rewrite !iter_getitem_setitem_ne by discriminate.
  - intros Hnone. exists cells, gbp, eur, inr.
    repeat split; eauto using convert_cells_length, setitem_derived_append.
Qed.

(** ** Bank tables *)

Lemma maybe_convert_objects_str (names : list string) :
  maybe_convert_objects (map PyStr names) = map PyStr names.
Proof.
  unfold maybe_convert_objects. destruct names; reflexivity.
Qed.

Lemma maybe_convert_objects_caps (rs : list BankRecord) :
  maybe_convert_objects (map (fun r => cap_object (snd r)) rs)
  = if existsb has_cap rs
    then map (fun r => PyFloat (cap_float r)) rs
    else map (fun _ => PyNone) rs.
Proof.
  unfold maybe_convert_objects.
  assert (forallb is_float_or_none (map (fun r => cap_object (snd r)) rs) = true)
    as ->.
  { induction rs as [|[name [x|]] rs IH]; simpl; auto. }
  assert (existsb is_float (map (fun r => cap_object (snd r)) rs)
          = existsb has_cap rs) as ->.
  { induction rs as [|[name [x|]] rs IH]; simpl; auto. }
  simpl. destruct (existsb has_cap rs) eqn:E.
  - rewrite map_map. apply map_ext. intros [name [x|]]; reflexivity.
  - induction rs as [|[name [x|]] rs IH]; simpl in *;
      [reflexivity|discriminate|]. f_equal. auto.
Qed.

(** The frame of line 63, column by column. *)
Lemma BankTable_columns (rs : list BankRecord) :
  BankTable rs
  = [("Name", map (fun r => PyStr (fst r)) rs);
     ("MC_USD_Billion",
      if existsb has_cap rs
      then map (fun r => PyFloat (cap_float r)) rs
      else map (fun _ => PyNone) rs)].
Proof.
  unfold BankTable, DataFrame_of_dicts, table_attribs. simpl.
  rewrite !map_map. f_equal; [|f_equal]; f_equal.
  - rewrite <- (map_map fst PyStr), <- maybe_convert_objects_str, map_map.
    reflexivity.
  - rewrite <- maybe_convert_objects_caps. reflexivity.
Qed.

Lemma BankTable_not_derived (rs : list BankRecord) :
  existsb (fun col => derived_label (fst col)) (BankTable rs) = false.
Proof. rewrite BankTable_columns. reflexivity. Qed.

Lemma iter_getitem_BankTable (rs : list BankRecord) :
  iter_getitem (BankTable rs) "MC_USD_Billion"
  = OK (if existsb has_cap rs
        then map (fun r => PyFloat (cap_float r)) rs
        else map (fun _ => PyNone) rs).
Proof. rewrite BankTable_columns. reflexivity. Qed.

(** The comprehension on a float64 column and a float rate. *)
Lemma convert_cells_floats (xs : list spec_float) d currency rate :
  d !! currency = Some (PyFloat rate) ->
  convert_cells (map PyFloat xs) d currency = OK (map (converted rate) xs).
Proof.
  intros Hd. induction xs as [|x xs IH]; simpl; [reflexivity|].
  unfold dict_getitem. rewrite Hd. simpl. rewrite IH. reflexivity.
Qed.

(** [transform] on a frame whose market-cap column is a float64 column,
    with float rates. *)
Lemma transform_float_column
      (df : DataFrame) fs csv_path d (gbp eur inr : spec_float) xs :
  read_exchange_rate_dict fs csv_path = OK d ->
  d !! "GBP" = Some (PyFloat gbp) ->
  d !! "EUR" = Some (PyFloat eur) ->
  d !! "INR" = Some (PyFloat inr) ->
  iter_getitem df "MC_USD_Billion" = OK (map PyFloat xs) ->
  transform df fs csv_path
  = OK (setitem (setitem (setitem df "MC_GBP_Billion" (map (converted gbp) xs))
                         "MC_EUR_Billion" (map (converted eur) xs))
                "MC_INR_Billion" (map (converted inr) xs)).
Proof.
  intros Hd Hg He Hi Hcol.
  apply (transform_OK _ _ _ d _ _ _ _ Hd Hcol); now apply convert_cells_floats.
Qed.

Lemma iter_getitem_float_table (rs : list BankRecord) :
  existsb has_cap rs = true ->
  iter_getitem (BankTable rs) "MC_USD_Billion"
  = OK (map PyFloat (map cap_float rs)).
Proof.
  intros Hcap. rewrite iter_getitem_BankTable, Hcap. now rewrite map_map.
Qed.

(** C3, as the code has it: on a table in which some record has a market
    cap (the column is then a float64 column), and with float rates for GBP,
    EUR and INR in the rate file, [transform] appends exactly three columns
    after the original ones, MC_GBP_Billion, MC_EUR_Billion and
    MC_INR_Billion in that order; the cell of a record with market cap [x]
    is what numpy's [np.round(x * rate, 2)] computes: the binary64 product
    [x * rate], times 100, rounded to the nearest integer with a tie going
    to the even one, divided by 100. *)
Theorem transform_appends_rounded_columns
        (rs : list BankRecord) fs csv_path d (gbp eur inr : spec_float) :
  read_exchange_rate_dict fs csv_path = OK d ->
  d !! "GBP" = Some (PyFloat gbp) ->
  d !! "EUR" = Some (PyFloat eur) ->
  d !! "INR" = Some (PyFloat inr) ->
  existsb has_cap rs = true ->
  transform (BankTable rs) fs csv_path
  = OK (BankTable rs
        ++ [("MC_GBP_Billion",
             map (fun r => PyFloat (rint_hundredths
                                      (SFmul 53 1024 (cap_float r) gbp))) rs);
            ("MC_EUR_Billion",
             map (fun r => PyFloat (rint_hundredths
                                      (SFmul 53 1024 (cap_float r) eur))) rs);
            ("MC_INR_Billion",
             map (fun r => PyFloat (rint_hundredths
                                      (SFmul 53 1024 (cap_float r) inr))) rs)]).
Proof.
  intros Hd Hg He Hi Hcap.
  rewrite (transform_float_column _ _ _ d gbp eur inr (map cap_float rs))
    by auto using iter_getitem_float_table.
  rewrite setitem_derived_append by apply BankTable_not_derived.
  now rewrite !map_map.
Qed.

(** C3 in the scenario of the specification (the derived values of a market
    cap of 100.0 are 80.0, 93.0 and 8295.0) and on a market cap of 123.456,
    whose products 98.7648, 114.81408 and 10240.6752 become 98.76, 114.81
    and 10240.68. *)
Lemma transform_scenario :
  transform scenario_table scenario_files exchange_rate_csv_path
  = OK scenario_result
  /\ transform rounding_table scenario_files exchange_rate_csv_path
     = OK rounding_result.
Proof.
  split.
  - etransitivity.
    + eapply (transform_appends_rounded_columns
                [("Bank A", Some (F64.of_Z 100))]); vm_compute; reflexivity.
    + vm_compute. reflexivity.
  - etransitivity.
    + eapply (transform_appends_rounded_columns
                [("Bank A", Some (F64.of_Z 100));
                 ("Bank B", Some (F64.of_decimal false 123456 (-3)))]);
        vm_compute; reflexivity.
    + vm_compute. reflexivity.
Defined.

(** C3, as stated, fails on the code: what numpy computes is not always the
    product rounded to two decimals.  With a market cap of 0.5 and the rate
    0.93 the product is the binary64 number next to 0.465, which lies above
    0.465, so that it rounds to 0.47 under either tie rule; but its product
    with 100 is rounded to 46.5, a tie, and the cell is 0.46.  With a market
    cap of 1e307 and the rate 0.8 the product 8e306 is its own rounding,
    but its product with 100 overflows and the cell is infinite. *)
Lemma transform_half_cent :
  (transform half_table scenario_files exchange_rate_csv_path
   = OK (half_table
         ++ [("MC_GBP_Billion", [PyFloat (F64.of_decimal false 4 (-1))]);
             ("MC_EUR_Billion", [PyFloat (F64.of_decimal false 46 (-2))]);
             ("MC_INR_Billion", [PyFloat (F64.of_decimal false 4148 (-2))])])
   /\ forall away,
       round_hundredths away
         (SFmul 53 1024 (F64.of_decimal false 5 (-1))
                (F64.of_decimal false 93 (-2)))
       = F64.of_decimal false 47 (-2)
       /\ F64.of_decimal false 47 (-2) <> F64.of_decimal false 46 (-2))
  /\ (transform huge_table scenario_files exchange_rate_csv_path
      = OK (huge_table
            ++ [("MC_GBP_Billion", [PyFloat (S754_infinity false)]);
                ("MC_EUR_Billion", [PyFloat (S754_infinity false)]);
                ("MC_INR_Billion", [PyFloat (S754_infinity false)])])
      /\ forall away,
          round_hundredths away
            (SFmul 53 1024 (F64.of_decimal false 1 307)
                   (F64.of_decimal false 8 (-1)))
          = F64.of_decimal false 8 306
          /\ F64.of_decimal false 8 306 <> S754_infinity false).
Proof.
  split; (split; [vm_compute; reflexivity|]); intros away;
    (split; [destruct away; vm_compute; reflexivity
            |intros H; vm_compute in H; discriminate]).
Qed.

(** C8, in the same scenario. *)
Lemma transform_idempotent_scenario :
  transform scenario_table scenario_files exchange_rate_csv_path
  = OK scenario_result
  /\ transform scenario_result scenario_files exchange_rate_csv_path
     = OK scenario_result.
Proof.
  assert (transform scenario_table scenario_files exchange_rate_csv_path
          = OK scenario_result) as H by (vm_compute; reflexivity).
  split; [exact H|]. exact (transform_idempotent _ _ _ _ H).
Defined.

(** C10, in the same scenario. *)
Lemma transform_keeps_columns_scenario :
  iter_getitem scenario_result "Name" = OK [PyStr "Bank A"]
  /\ iter_getitem scenario_result "MC_USD_Billion" = OK [PyFloat (F64.of_Z 100)]
  /\ exists gbp eur inr,
       scenario_result
       = scenario_table ++ [("MC_GBP_Billion", [gbp]); ("MC_EUR_Billion", [eur]);
                            ("MC_INR_Billion", [inr])].
Proof.
  assert (transform scenario_table scenario_files exchange_rate_csv_path
          = OK scenario_result) as H by (vm_compute; reflexivity).
  destruct (transform_keeps_columns _ _ _ _ H) as (_ & Hn & Hm & Happ).
  split; [rewrite Hn; vm_compute; reflexivity|].
  split; [rewrite Hm; vm_compute; reflexivity|].
  destruct (Happ eq_refl) as (cells & gbp & eur & inr & Hc & Hg & He & Hi & Hdf).
  assert (length cells = 1%nat) as Hlen.
  { vm_compute in Hc. injection Hc as <-. reflexivity. }
  rewrite Hlen in Hg, He, Hi.
  destruct gbp as [|gbp [|? ?]]; try discriminate.
  destruct eur as [|eur [|? ?]]; try discriminate.
  destruct inr as [|inr [|? ?]]; try discriminate.
  exists gbp, eur, inr. exact Hdf.
Defined.

(** ** The rate file *)

Lemma find_existsb_false {A} (f : A -> bool) (l : list A) :
  existsb f l = false -> List.find f l = None.
Proof.
  induction l as [|a l IH]; simpl; [reflexivity|].
  destruct (f a); [discriminate|exact IH].
Qed.

Lemma find_existsb_true {A} (f : A -> bool) (l : list A) :
  existsb f l = true -> exists a, List.find f l = Some a /\ f a = true.
Proof.
  induction l as [|a l IH]; simpl; [discriminate|].
  destruct (f a) eqn:E; [eauto|exact IH].
Qed.

Lemma existsb_filter_ne (df : DataFrame) key label :
  label <> key ->
  existsb (labelled label) (List.filter (fun col => negb (labelled key col)) df)
  = existsb (labelled label) df.
Proof.
  intros Hne. induction df as [|col df IH]; simpl; [reflexivity|].
  destruct (labelled key col) eqn:Hk; simpl.
  - apply labelled_eq in Hk.
    assert (labelled label col = false) as ->
        by (apply labelled_neq; congruence).
    exact IH.
  - now rewrite IH.
Qed.

Lemma read_missing_file (fs : files) csv_path :
  fs !! csv_path = None ->
  read_exchange_rate_dict fs csv_path = Raise FileNotFoundError.
Proof.
  intros H. unfold read_exchange_rate_dict, read_csv. now rewrite H.
Qed.

Lemma read_missing_Currency (fs : files) csv_path rates :
  fs !! csv_path = Some rates ->
  existsb (labelled "Currency") rates = false ->
  read_exchange_rate_dict fs csv_path = Raise (KeyError "Currency").
Proof.
  intros H Hc. unfold read_exchange_rate_dict, read_csv. rewrite H, bind_OK.
  unfold set_index. now rewrite (find_existsb_false _ _ Hc).
Qed.

Lemma read_missing_Rates (fs : files) csv_path rates :
  fs !! csv_path = Some rates ->
  existsb (labelled "Currency") rates = true ->
  existsb (labelled "Rates") rates = false ->
  read_exchange_rate_dict fs csv_path = Raise (KeyError "Rates").
Proof.
  intros H Hc Hr. unfold read_exchange_rate_dict, read_csv. rewrite H, bind_OK.
  unfold set_index.
  destruct (find_existsb_true _ _ Hc) as ([label index] & -> & _).
  rewrite bind_OK. unfold to_dict_getitem. simpl.
  rewrite find_existsb_false; [reflexivity|].
  now rewrite existsb_filter_ne by discriminate.
Qed.

Lemma read_both_columns (fs : files) csv_path rates :
  fs !! csv_path = Some rates ->
  existsb (labelled "Currency") rates = true ->
  existsb (labelled "Rates") rates = true ->
  exists d, read_exchange_rate_dict fs csv_path = OK d.
Proof.
  intros H Hc Hr. unfold read_exchange_rate_dict, read_csv. rewrite H, bind_OK.
  unfold set_index.
  destruct (find_existsb_true _ _ Hc) as ([label index] & -> & _).
  rewrite bind_OK. unfold to_dict_getitem. simpl.
  rewrite <- (existsb_filter_ne rates "Currency") in Hr by discriminate.
  destruct (find_existsb_true _ _ Hr) as ([label' cells] & -> & _).
  eauto.
Qed.

Lemma transform_read_Raise (df : DataFrame) fs csv_path e :
  read_exchange_rate_dict fs csv_path = Raise e ->
  transform df fs csv_path = Raise e.
Proof. intros H. unfold transform. now rewrite H. Qed.

(** With a record to convert, the comprehension asks for the rate first. *)
Lemma convert_cells_absent x cells (d : gmap string object) currency :
  d !! currency = None ->
  convert_cells (x :: cells) d currency = Raise (KeyError currency).
Proof. intros H. simpl. unfold dict_getitem. now rewrite H. Qed.

(** With the rate present, the comprehension ends or meets a cell or a rate
    that does not multiply. *)
Lemma convert_cells_present cells (d : gmap string object) currency rate :
  d !! currency = Some rate ->
  (exists out, convert_cells cells d currency = OK out)
  \/ convert_cells cells d currency = Raise TypeError.
Proof.
  intros H. induction cells as [|x cells IH]; simpl; [eauto|].
  unfold dict_getitem. rewrite H, bind_OK.
  destruct (py_mul x rate) as [product|e] eqn:Hmul.
  - rewrite bind_OK. destruct IH as [[out ->]| ->]; [left|right]; eauto.
  - right. destruct x, rate; simpl in Hmul; try discriminate;
      injection Hmul as <-; reflexivity.
Qed.

Lemma convert_cells_float_cells cells (d : gmap string object) currency rate :
  d !! currency = Some (PyFloat rate) ->
  forallb is_float cells = true ->
  exists out, convert_cells cells d currency = OK out.
Proof.
  intros H. induction cells as [|x cells IH]; simpl; [eauto|].
  intros Hall. apply andb_true_iff in Hall. destruct Hall as [Hx Hall].
  destruct x; try discriminate.
  destruct (IH Hall) as [out Hout].
  unfold dict_getitem. rewrite H. simpl. rewrite Hout. eauto.
Qed.

(** [transform] once the rates are read and the column is found. *)
Lemma transform_unfold (df : DataFrame) fs csv_path d cells :
  read_exchange_rate_dict fs csv_path = OK d ->
  iter_getitem df "MC_USD_Billion" = OK cells ->
  transform df fs csv_path
  = (gbp ← convert_cells cells d "GBP";
     eur ← convert_cells cells d "EUR";
     inr ← convert_cells cells d "INR";
     OK (setitem (setitem (setitem df "MC_GBP_Billion" gbp)
                          "MC_EUR_Billion" eur) "MC_INR_Billion" inr)).
Proof.
  intros Hd Hc. unfold transform, convert.
  rewrite Hd, bind_OK, Hc, bind_OK.
  destruct (convert_cells cells d "GBP") as [gbp|e]; [|reflexivity].
  rewrite !bind_OK, iter_getitem_setitem_ne, Hc, bind_OK by discriminate.
  destruct (convert_cells cells d "EUR") as [eur|e]; [|reflexivity].
  rewrite !bind_OK, !iter_getitem_setitem_ne, Hc, bind_OK by discriminate.
  reflexivity.
Qed.

Lemma first_absent_cases (d : gmap string object) :
  match first_absent d with
  | Some c =>
      d !! c = None
      /\ ((c = "GBP")
          \/ (c = "EUR" /\ is_Some (d !! "GBP"))
          \/ (c = "INR" /\ is_Some (d !! "GBP") /\ is_Some (d !! "EUR")))
  | None => is_Some (d !! "GBP") /\ is_Some (d !! "EUR") /\ is_Some (d !! "INR")
  end.
Proof.
  unfold first_absent. simpl.
  destruct (d !! "GBP") as [g|] eqn:Hg; simpl.
  2: { split; [exact Hg|left; reflexivity]. }
  destruct (d !! "EUR") as [e|] eqn:He; simpl.
  2: { split; [exact He|right; left; eauto]. }
  destruct (d !! "INR") as [i|] eqn:Hi; simpl.
  2: { split; [exact Hi|right; right; eauto]. }
  eauto.
Qed.

(** C5, as the code has it: [transform] fails with FileNotFoundError when
    the rate file is missing and with a KeyError naming the column when the
    file lacks the Currency or the Rates column.  A currency among GBP, EUR
    and INR that the rates lack makes [transform] fail when the table has at
    least one record: with the KeyError of the first such currency, or with a
    TypeError when a cell or a rate met before does not multiply (never for
    GBP, and never on float cells and float rates).  On a table with no
    record the rates are not consulted and [transform] succeeds.  With both
    columns and the three currencies present, [transform] returns or fails
    with a TypeError, not for a missing file, column or currency. *)
Theorem transform_rate_source_errors
        (df : DataFrame) (fs : files) (csv_path : string) :
  (fs !! csv_path = None ->
   transform df fs csv_path = Raise FileNotFoundError)
  /\ (forall rates, fs !! csv_path = Some rates ->
        existsb (labelled "Currency") rates = false ->
        transform df fs csv_path = Raise (KeyError "Currency"))
  /\ (forall rates, fs !! csv_path = Some rates ->
        existsb (labelled "Currency") rates = true ->
        existsb (labelled "Rates") rates = false ->
        transform df fs csv_path = Raise (KeyError "Rates"))
  /\ (forall rates, fs !! csv_path = Some rates ->
        existsb (labelled "Currency") rates = true ->
        existsb (labelled "Rates") rates = true ->
        exists d, read_exchange_rate_dict fs csv_path = OK d)
  /\ (forall d x cells currency,
        read_exchange_rate_dict fs csv_path = OK d ->
        iter_getitem df "MC_USD_Billion" = OK (x :: cells) ->
        first_absent d = Some currency ->
        (transform df fs csv_path = Raise (KeyError currency)
         \/ transform df fs csv_path = Raise TypeError)
        /\ (currency = "GBP" ->
            transform df fs csv_path = Raise (KeyError "GBP"))
        /\ (forallb is_float (x :: cells) = true ->
            (forall c v, d !! c = Some v -> is_float v = true) ->
            transform df fs csv_path = Raise (KeyError currency)))
  /\ (forall d,
        read_exchange_rate_dict fs csv_path = OK d ->
        iter_getitem df "MC_USD_Billion" = OK [] ->
        transform df fs csv_path
        = OK (setitem (setitem (setitem df "MC_GBP_Billion" [])
                               "MC_EUR_Billion" []) "MC_INR_Billion" []))
  /\ (forall d cells,
        read_exchange_rate_dict fs csv_path = OK d ->
        iter_getitem df "MC_USD_Billion" = OK cells ->
        first_absent d = None ->
        (exists df', transform df fs csv_path = OK df')
        \/ transform df fs csv_path = Raise TypeError).
Proof.
  repeat apply conj.
  - intros H. now apply transform_read_Raise, read_missing_file.
  - intros rates H Hc. eapply transform_read_Raise, read_missing_Currency; eauto.
  - intros rates H Hc Hr.
    eapply transform_read_Raise, read_missing_Rates; eauto.
  - intros rates. apply read_both_columns.
  - intros d x cells currency Hd Hcells Habs.
    rewrite (transform_unfold _ _ _ _ _ Hd Hcells).
    pose proof (first_absent_cases d) as Hcases. rewrite Habs in Hcases.
    destruct Hcases as [Hnone [->|[[-> [g Hg]]|[-> [[g Hg] [e He]]]]]].
    + rewrite (convert_cells_absent _ _ _ _ Hnone). simpl. auto.
    + split; [|split; [discriminate|]].
      * destruct (convert_cells_present (x :: cells) d "GBP" g Hg)
          as [[gbp ->]| ->]; [|right; reflexivity].
        rewrite bind_OK, (convert_cells_absent _ _ _ _ Hnone). left; reflexivity.
      * intros Hfl Hrates. pose proof (Hrates _ _ Hg) as Hgf.
        destruct g as [| |g]; try discriminate.
        destruct (convert_cells_float_cells (x :: cells) d "GBP" g Hg Hfl)
          as [gbp ->].
        rewrite bind_OK, (convert_cells_absent _ _ _ _ Hnone). reflexivity.
    + split; [|split; [discriminate|]].
      * destruct (convert_cells_present (x :: cells) d "GBP" g Hg)
          as [[gbp ->]| ->]; [|right; reflexivity].
        rewrite bind_OK.
        destruct (convert_cells_present (x :: cells) d "EUR" e He)
          as [[eur ->]| ->]; [|right; reflexivity].
        rewrite bind_OK, (convert_cells_absent _ _ _ _ Hnone). left; reflexivity.
      * intros Hfl Hrates.
        pose proof (Hrates _ _ Hg) as Hgf. pose proof (Hrates _ _ He) as Hef.
        destruct g as [| |g]; try discriminate.
        destruct e as [| |e]; try discriminate.
        destruct (convert_cells_float_cells (x :: cells) d "GBP" g Hg Hfl)
          as [gbp ->].
        destruct (convert_cells_float_cells (x :: cells) d "EUR" e He Hfl)
          as [eur ->].
        rewrite !bind_OK, (convert_cells_absent _ _ _ _ Hnone). reflexivity.
  - intros d Hd Hcells. rewrite (transform_unfold _ _ _ _ _ Hd Hcells).
    reflexivity.
  - intros d cells Hd Hcells Habs.
    rewrite (transform_unfold _ _ _ _ _ Hd Hcells).
    pose proof (first_absent_cases d) as Hcases. rewrite Habs in Hcases.
    destruct Hcases as ([g Hg] & [e He] & [i Hi]).
    destruct (convert_cells_present cells d "GBP" g Hg)
      as [[gbp ->]| ->]; [|right; reflexivity].
    destruct (convert_cells_present cells d "EUR" e He)
      as [[eur ->]| ->]; [|right; reflexivity].
    destruct (convert_cells_present cells d "INR" i Hi)
      as [[inr ->]| ->]; [|right; reflexivity].
    left. rewrite !bind_OK. eauto.
Qed.

(** C5, as stated, fails on a table with no record: GBP is absent from the
    loaded rates and [transform] still succeeds. *)
Lemma transform_empty_table_without_GBP :
  (exists d, read_exchange_rate_dict files_without_GBP exchange_rate_csv_path = OK d
             /\ d !! "GBP" = None)
  /\ transform (BankTable []) files_without_GBP exchange_rate_csv_path
     = OK [("Name", []); ("MC_USD_Billion", []); ("MC_GBP_Billion", []);
           ("MC_EUR_Billion", []); ("MC_INR_Billion", [])].
Proof.
  split.
  - eexists. split; vm_compute; reflexivity.
  - vm_compute. reflexivity.
Qed.

(** C5 at concrete rate files: no file, no Currency column, no Rates column,
    no GBP with one record in the table, and the complete file. *)
Lemma transform_rate_source_errors_witness :
  transform scenario_table ∅ exchange_rate_csv_path = Raise FileNotFoundError
  /\ transform scenario_table {[ exchange_rate_csv_path := rates_without_Currency ]}
               exchange_rate_csv_path = Raise (KeyError "Currency")
  /\ transform scenario_table {[ exchange_rate_csv_path := rates_without_Rates ]}
               exchange_rate_csv_path = Raise (KeyError "Rates")
  /\ transform scenario_table files_without_GBP exchange_rate_csv_path
     = Raise (KeyError "GBP")
  /\ ((exists df', transform scenario_table scenario_files exchange_rate_csv_path
                   = OK df')
      \/ transform scenario_table scenario_files exchange_rate_csv_path
         = Raise TypeError).
Proof.
  split; [|split; [|split; [|split]]].
  - destruct (transform_rate_source_errors
                scenario_table ∅ exchange_rate_csv_path) as (H & _).
    apply H. reflexivity.
  - destruct (transform_rate_source_errors
                scenario_table {[ exchange_rate_csv_path := rates_without_Currency ]}
                exchange_rate_csv_path) as (_ & H & _).
    eapply H; vm_compute; reflexivity.
  - destruct (transform_rate_source_errors
                scenario_table {[ exchange_rate_csv_path := rates_without_Rates ]}
                exchange_rate_csv_path) as (_ & _ & H & _).
    eapply H; vm_compute; reflexivity.
  - destruct (transform_rate_source_errors
                scenario_table files_without_GBP exchange_rate_csv_path)
      as (_ & _ & _ & _ & H & _).
    edestruct H as (_ & HGBP & _);
      [vm_compute; reflexivity | vm_compute; reflexivity
       | vm_compute; reflexivity | apply HGBP; reflexivity].
  - destruct (transform_rate_source_errors
                scenario_table scenario_files exchange_rate_csv_path)
      as (_ & _ & _ & _ & _ & _ & H).
    eapply H; vm_compute; reflexivity.
Defined.

(** ** [load_to_db] *)












(** ** [extract] *)

(** What the loop of lines 41-44 computes. *)
Lemma find_target_stops (tables : list element) :
  find_target tables
  = match List.find stops tables with
    | None => OK None
    | Some table =>
        match label_of table with
        | Some _ => OK (Some (self table))
        | None => Raise AttributeError
        end
    end.
Proof.
  induction tables as [|table tables IH]; [reflexivity|].
  assert (find_target (table :: tables)
          = match label_of table with
            | Some label =>
                if String.eqb label heading then OK (Some (self table))
                else find_target tables
            | None => Raise AttributeError
            end) as ->.
  { simpl. unfold label_of.
    destruct (find_previous "h2" table) as [h2|]; [|reflexivity].
    simpl. destruct (find "span" h2); reflexivity. }
  cbn [List.find]. unfold stops at 1.
  destruct (label_of table) as [label|] eqn:Hlabel; [|now rewrite Hlabel].
  destruct (String.eqb label heading); [now rewrite Hlabel|exact IH].
Qed.

Lemma extract_rows_two_cells (row : node) rest attribs :
  length (find_all "td" row) = 2%nat ->
  extract_rows (row :: rest) attribs = Raise IndexError.
Proof.
  intros H. simpl.
  destruct (find_all "td" row) as [|c0 [|c1 [|c2 cols]]]; try discriminate.
  reflexivity.
Qed.

(** Rows with a number of cells other than two never raise: those with fewer
    are skipped, those with more give one record each, in order. *)
Lemma extract_rows_records (rows : list node) :
  Forall (fun row => length (find_all "td" row) <> 2%nat) rows ->
  extract_rows rows table_attribs
  = OK (map record_dict (map record_of_row (List.filter retained rows))).
Proof.
  induction 1 as [|row rows Hrow Hrows IH]; [reflexivity|].
  cbn [extract_rows List.filter].
  change (retained row) with (2 <=? length (find_all "td" row))%nat.
  destruct (find_all "td" row) as [|c0 [|c1 [|c2 cols]]] eqn:Hcols;
    [exact IH | exact IH | exfalso; apply Hrow; reflexivity |].
  cbn [length Nat.leb map]. unfold record_of_row at 1.
  rewrite Hcols, IH. reflexivity.
Qed.

(** Once the target table is found and none of its rows has exactly two
    cells, [extract] returns the table of the retained rows, one record per
    row with at least three cells, in document order. *)
Theorem extract_records (soup target : node) :
  find_target (find_all_placed "tbody" soup) = OK (Some target) ->
  Forall (fun row => length (find_all "td" row) <> 2%nat)
         (tl (find_all "tr" target)) ->
  extract soup table_attribs
  = OK (BankTable (map record_of_row
                       (List.filter retained (tl (find_all "tr" target)))))
  /\ nrows (BankTable (map record_of_row
                           (List.filter retained (tl (find_all "tr" target)))))
     = length (List.filter retained (tl (find_all "tr" target))).
Proof.
  intros Htarget Hrows. split.
  - unfold extract. rewrite Htarget, bind_OK.
    rewrite (extract_rows_records _ Hrows), bind_OK. reflexivity.
  - rewrite BankTable_columns. simpl. now rewrite !length_map.
Qed.

(** C1 fails on the code: a data row with exactly two cells passes the test
    of line 54, and line 56 then reads a third cell that is not there. *)
Theorem extract_two_cell_row_raises :
  retained (Tag "tr" [td "1"; td "Bank A"]) = true
  /\ extract two_cell_page table_attribs = Raise IndexError.
Proof. split; vm_compute; reflexivity. Qed.

(** The same page with a third cell in the row. *)
Lemma extract_records_witness :
  extract (page [Tag "tr" [td "1"; td " Bank A "; td "100.0"];
                 Tag "tr" [td "no cells to read"];
                 Tag "tr" [td "2"; td "Bank B"; td "N/A"]])
          table_attribs
  = OK (BankTable [("Bank A", Some (F64.of_Z 100)); ("Bank B", None)]).
Proof.
  refine (eq_trans (proj1 (extract_records _ _ _ _)) _).
  - vm_compute. reflexivity.
  - vm_compute. repeat constructor; discriminate.
  - vm_compute. reflexivity.
Defined.

(** C2 fails on the code: when no record of the table has a market cap the
    column holds [None] itself, and line 78 multiplies [None] by a float. *)
Theorem transform_all_null_raises :
  extract not_available_page table_attribs
  = OK [("Name", [PyStr "Bank A"]); ("MC_USD_Billion", [PyNone])]
  /\ transform [("Name", [PyStr "Bank A"]); ("MC_USD_Billion", [PyNone])]
               scenario_files exchange_rate_csv_path
     = Raise TypeError.
Proof. split; vm_compute; reflexivity. Qed.

Lemma converted_nan rate : converted rate S754_nan = NaN.
Proof. reflexivity. Qed.

(** When some record of the table has a market cap, the records without one
    hold NaN, and [transform] gives them NaN in the three derived columns. *)
Theorem transform_propagates_null
        (rs : list BankRecord) fs csv_path d (gbp eur inr : spec_float) :
  read_exchange_rate_dict fs csv_path = OK d ->
  d !! "GBP" = Some (PyFloat gbp) ->
  d !! "EUR" = Some (PyFloat eur) ->
  d !! "INR" = Some (PyFloat inr) ->
  existsb has_cap rs = true ->
  exists df' gbps eurs inrs,
    transform (BankTable rs) fs csv_path = OK df'
    /\ iter_getitem df' "MC_GBP_Billion" = OK gbps
    /\ iter_getitem df' "MC_EUR_Billion" = OK eurs
    /\ iter_getitem df' "MC_INR_Billion" = OK inrs
    /\ forall (i : nat) name,
        rs !! i = Some (name, None) ->
        gbps !! i = Some NaN /\ eurs !! i = Some NaN /\ inrs !! i = Some NaN.
Proof.
  intros Hd Hg He Hi Hcap.
  exists (BankTable rs
          ++ [("MC_GBP_Billion", map (fun r => converted gbp (cap_float r)) rs);
              ("MC_EUR_Billion", map (fun r => converted eur (cap_float r)) rs);
              ("MC_INR_Billion", map (fun r => converted inr (cap_float r)) rs)]),
         (map (fun r => converted gbp (cap_float r)) rs),
         (map (fun r => converted eur (cap_float r)) rs),
         (map (fun r => converted inr (cap_float r)) rs).
  split.
  { rewrite (transform_float_column _ _ _ d gbp eur inr (map cap_float rs))
      by auto using iter_getitem_float_table.
    rewrite setitem_derived_append by apply BankTable_not_derived.
    now rewrite !map_map. }
  rewrite BankTable_columns.
  repeat (split; [reflexivity|]).
  intros i name Hr.
  change (@map (string * option spec_float) object)
    with (@fmap list _ (string * option spec_float)%type object).
  rewrite !list_lookup_fmap, Hr. repeat split; reflexivity.
Qed.

(** Null propagation on a table of two records, the second without a
    market cap. *)
Lemma transform_propagates_null_witness :
  exists df' gbps,
    transform (BankTable [("Bank A", Some (F64.of_Z 100)); ("Bank B", None)])
              scenario_files exchange_rate_csv_path = OK df'
    /\ iter_getitem df' "MC_GBP_Billion" = OK gbps
    /\ gbps !! 1%nat = Some NaN.
Proof.
  edestruct (transform_propagates_null
               [("Bank A", Some (F64.of_Z 100)); ("Bank B", None)]
               scenario_files exchange_rate_csv_path)
    as (df' & gbps & eurs & inrs & Ht & Hg & He & Hi & Hnull);
    [vm_compute; reflexivity ..|].
  exists df', gbps. repeat split; [exact Ht|exact Hg|].
  now destruct (Hnull 1%nat "Bank B" eq_refl).
Defined.

(** C4 fails on the code: the page has a table body under the heading, but a
    table body with no [h2] before it comes first, and line 42 reads the
    [span] of [None]: [extract] raises AttributeError and selects nothing. *)
Theorem extract_headless_table_raises :
  map label_of (find_all_placed "tbody" headless_table_page)
  = [None; Some heading]
  /\ extract headless_table_page table_attribs = Raise AttributeError.
Proof. split; vm_compute; reflexivity. Qed.

(** When every table body before it has a labelled heading that is not the
    target's, the first table body under the target heading is selected; and
    when every table body is so, the ValueError of line 47 is raised. *)
Theorem find_target_first_labelled (before : list element) :
  Forall (fun table => exists label,
              label_of table = Some label /\ label <> heading) before ->
  find_target before = OK None
  /\ (forall soup attribs,
         find_all_placed "tbody" soup = before ->
         extract soup attribs
         = Raise (ValueError "Could not find the target table on the page."))
  /\ (forall table after,
         label_of table = Some heading ->
         find_target (before ++ table :: after) = OK (Some (self table))).
Proof.
  intros Hbefore.
  assert (List.find stops before = None) as Hnone.
  { induction Hbefore as [|t before (label & Hl & Hne) _ IH]; [reflexivity|].
    simpl. unfold stops at 1. rewrite Hl.
    apply String.eqb_neq in Hne. now rewrite Hne. }
  assert (find_target before = OK None) as Hfind
      by now rewrite find_target_stops, Hnone.
  split; [exact Hfind|]. split.
  - intros soup attribs Hsoup. unfold extract. now rewrite Hsoup, Hfind.
  - intros table after Hlabel. rewrite find_target_stops.
    assert (List.find stops (before ++ table :: after) = Some table) as ->.
    { clear Hfind. induction before as [|t before IH]; simpl.
      - unfold stops. now rewrite Hlabel, String.eqb_refl.
      - simpl in Hnone. destruct (stops t); [discriminate|].
        apply IH; [now inversion Hbefore|exact Hnone]. }
    now rewrite Hlabel.
Qed.

(** On a page with a table under the heading "By total assets" before the
    target table, the loop passes the first table and selects the second;
    on a page with the first table only, [extract] raises the ValueError. *)
Lemma find_target_first_labelled_witness :
  find_target [nth_table two_tables_page 0] = OK None
  /\ find_target (find_all_placed "tbody" two_tables_page)
     = OK (Some (self (nth_table two_tables_page 1)))
  /\ extract other_table_page table_attribs
     = Raise (ValueError "Could not find the target table on the page.").
Proof.
  destruct (find_target_first_labelled [nth_table two_tables_page 0])
    as (Hnone & _ & Hfirst).
  { constructor; [|constructor]. exists "By total assets".
    split; [reflexivity|discriminate]. }
  destruct (find_target_first_labelled [nth_table other_table_page 0])
    as (_ & Hraise & _).
  { constructor; [|constructor]. exists "By total assets".
    split; [reflexivity|discriminate]. }
  split; [exact Hnone|]. split.
  - apply (Hfirst (nth_table two_tables_page 1) []). reflexivity.
  - apply Hraise. reflexivity.
Defined.

(** ** The market cap of a cell *)

Section Cleaning.

Import F64.

Lemma lstrip_head (l : list ascii) :
  match lstrip l with c :: _ => isspace c = false | [] => True end.
Proof.
  induction l as [|c l IH]; simpl; [exact I|].
  destruct (isspace c) eqn:Hc; [exact IH|exact Hc].
Qed.

Lemma lstrip_app_last (l : list ascii) c :
  isspace c = false -> lstrip (l ++ [c]) = lstrip l ++ [c].
Proof.
  intros Hc. induction l as [|a l IH]; simpl.
  - now rewrite Hc.
  - destruct (isspace a); [exact IH|reflexivity].
Qed.

(** [strip] leaves no white space at either end. *)
Lemma strip_no_outer (l : list ascii) : no_outer isspace (rstrip (lstrip l)).
Proof.
  unfold no_outer, rstrip. rewrite List.rev_involutive. split.
  - pose proof (lstrip_head l) as Hhead.
    destruct (lstrip l) as [|c t]; [exact I|].
    simpl. rewrite (lstrip_app_last _ _ Hhead), List.rev_app_distr.
    exact Hhead.
  - apply lstrip_head.
Qed.










End Cleaning.

Section Numbers.
Import F64.




























End Numbers.




(** ** The log *)

Section Log.

Local Open Scope Z_scope.

Lemma append_cons (c : ascii) (a b : string) :
  String c a +:+ b = String c (a +:+ b).
Proof. reflexivity. Qed.

Lemma append_nil_l (b : string) : "" +:+ b = b.
Proof. reflexivity. Qed.




Lemma append_assoc (a b c : string) : (a +:+ b) +:+ c = a +:+ (b +:+ c).
Proof.
  induction a as [|x a IH]; [reflexivity|].
  rewrite !append_cons. now rewrite IH.
Qed.

Lemma append_nil_r (a : string) : a +:+ "" = a.
Proof.
  induction a as [|x a IH]; [reflexivity|].
  rewrite append_cons. now rewrite IH.
Qed.

Lemma list_ascii_of_append (a b : string) :
  list_ascii_of_string (a +:+ b)
  = (list_ascii_of_string a ++ list_ascii_of_string b)%list.
Proof.
  induction a as [|c a IH]; [reflexivity|].
  rewrite append_cons. simpl. now rewrite IH.
Qed.









End Log.



(** ** All the outcomes of [extract] *)

Lemma extract_rows_outcome (rows : list node) :
  extract_rows rows table_attribs
  = if existsb two_cells rows then Raise IndexError
    else OK (map record_dict (map record_of_row (List.filter retained rows))).
Proof.
  induction rows as [|row rows IH]; [reflexivity|].
  cbn [extract_rows List.filter existsb].
  change (retained row) with (2 <=? length (find_all "td" row))%nat.
  unfold two_cells at 1.
  destruct (find_all "td" row) as [|c0 [|c1 [|c2 cols]]] eqn:Hcols;
    [exact IH | exact IH | reflexivity |].
  cbn [length Nat.leb Nat.eqb orb map]. rewrite IH.
  destruct (existsb two_cells rows); [reflexivity|].
  unfold record_of_row. rewrite Hcols. reflexivity.
Qed.

Lemma find_target_raises (tables : list element) e :
  find_target tables = Raise e -> e = AttributeError.
Proof.
  rewrite find_target_stops.
  destruct (List.find stops tables) as [table|]; [|discriminate].
  destruct (label_of table); [discriminate|]. now intros [= <-].
Qed.

Lemma extract_eq (soup : node) :
  extract soup table_attribs
  = match find_target (find_all_placed "tbody" soup) with
    | OK (Some target_table) => rows_outcome target_table
    | OK None =>
        Raise (ValueError "Could not find the target table on the page.")
    | Raise e => Raise e
    end.
Proof.
  unfold extract, rows_outcome.
  destruct (find_target (find_all_placed "tbody" soup)) as [[target|]|e];
    try reflexivity.
  rewrite bind_OK, extract_rows_outcome.
  destruct (existsb two_cells (tl (find_all "tr" target))); reflexivity.
Qed.

Lemma extract_OK_inv (soup : node) df :
  extract soup table_attribs = OK df ->
  exists target,
    find_target (find_all_placed "tbody" soup) = OK (Some target)
    /\ existsb two_cells (tl (find_all "tr" target)) = false
    /\ df = BankTable (map record_of_row
                           (List.filter retained (tl (find_all "tr" target)))).
Proof.
  rewrite extract_eq. unfold rows_outcome.
  destruct (find_target (find_all_placed "tbody" soup)) as [[target|]|e];
    try discriminate.
  destruct (existsb two_cells (tl (find_all "tr" target))) eqn:Htwo;
    [discriminate|].
  intros [= <-]. eauto.
Qed.

(** Once the page is fetched and parsed (lines 35-36 have returned), what
    is left of [extract], lines 38 to 64, has four outcomes, decided by the
    page alone: the AttributeError of line 42 when the loop meets a table
    body without a labelled heading before the target, the ValueError of
    line 47 when it meets no target, the IndexError of line 56 when a data
    row of the target has exactly two cells, and otherwise the table of the
    rows with three cells or more. *)
Theorem extract_outcomes (soup : node) :
  extract soup table_attribs
  = match List.find stops (find_all_placed "tbody" soup) with
    | None => Raise (ValueError "Could not find the target table on the page.")
    | Some table =>
        match label_of table with
        | None => Raise AttributeError
        | Some _ => rows_outcome (self table)
        end
    end.
Proof.
  rewrite extract_eq, find_target_stops.
  destruct (List.find stops (find_all_placed "tbody" soup)) as [table|];
    [|reflexivity].
  destruct (label_of table); reflexivity.
Qed.

(** The table that [extract] returns has a Name column of texts with no
    white space at either end and, with as many cells, a MC_USD_Billion
    column that holds floats only or [None] only. *)
Theorem extract_table_shape (soup : node) df :
  extract soup table_attribs = OK df ->
  exists names caps,
    df = [("Name", map PyStr names); ("MC_USD_Billion", caps)]
    /\ length caps = length names
    /\ Forall (fun name => no_outer isspace (list_ascii_of_string name)) names
    /\ (forallb is_float caps = true \/ Forall (eq PyNone) caps).
Proof.
  intros H. destruct (extract_OK_inv _ _ H) as (target & _ & _ & ->).
  set (rows := List.filter retained (tl (find_all "tr" target))).
  rewrite BankTable_columns.
  exists (map fst (map record_of_row rows)).
  eexists. split; [rewrite (map_map fst PyStr); reflexivity|].
  split; [|split].
  - destruct (existsb has_cap (map record_of_row rows));
      now rewrite !length_map.
  - clearbody rows. induction rows as [|row rows IH]; constructor; [|exact IH].
    unfold record_of_row. cbn [fst]. unfold strip.
    rewrite list_ascii_of_string_of_list_ascii. apply strip_no_outer.
  - destruct (existsb has_cap (map record_of_row rows)); [left|right].
    + clearbody rows. induction (map record_of_row rows); simpl; auto.
    + clearbody rows. induction (map record_of_row rows); simpl; auto.
Qed.

Lemma extract_table_shape_witness :
  exists names caps,
    extract sample_page table_attribs
    = OK [("Name", map PyStr names); ("MC_USD_Billion", caps)]
    /\ names = ["Bank A"].
Proof.
  destruct (extract_table_shape
              sample_page
              [("Name", [PyStr "Bank A"]);
               ("MC_USD_Billion", [PyFloat (F64.of_Z 100)])])
    as (names & caps & Hdf & _); [vm_compute; reflexivity|].
  exists names, caps. split.
  - rewrite <- Hdf. vm_compute. reflexivity.
  - injection Hdf as Hn _.
    destruct names as [|n [|? ?]]; try discriminate. now injection Hn as <-.
Defined.

(** ** White space and line ends in a cell *)

Section CellText.

Lemma lstrip_filter (l : list ascii) :
  lstrip (List.filter keep l) = List.filter keep (lstrip l).
Proof.
  induction l as [|c l IH]; [reflexivity|].
  cbn [List.filter lstrip]. unfold keep at 1.
  destruct (Ascii.eqb c newline) eqn:Hnl; cbn [negb].
  - apply Ascii.eqb_eq in Hnl. subst c.
    change (isspace newline) with true. exact IH.
  - cbn [lstrip]. destruct (isspace c); [exact IH|].
    cbn [List.filter]. unfold keep at 2. now rewrite Hnl.
Qed.

Lemma rstrip_filter (l : list ascii) :
  rstrip (List.filter keep l) = List.filter keep (rstrip l).
Proof.
  unfold rstrip.
  now rewrite <- List.filter_rev, lstrip_filter, List.filter_rev.
Qed.

Lemma lstrip_blank (l : list ascii) :
  forallb isspace l = true -> lstrip l = [].
Proof.
  induction l as [|c l IH]; [reflexivity|]. cbn [forallb lstrip].
  intros H. apply andb_true_iff in H. destruct H as [-> H]. auto.
Qed.

Lemma lstrip_blank_app (ws l : list ascii) :
  forallb isspace ws = true -> lstrip (ws ++ l) = lstrip l.
Proof.
  induction ws as [|c ws IH]; [reflexivity|]. cbn [forallb].
  intros H. apply andb_true_iff in H. destruct H as [Hc H].
  rewrite <- app_comm_cons. cbn [lstrip]. rewrite Hc. auto.
Qed.

Lemma lstrip_app (l ws : list ascii) :
  lstrip (l ++ ws)
  = if forallb isspace l then lstrip ws else lstrip l ++ ws.
Proof.
  induction l as [|c l IH]; [reflexivity|].
  rewrite <- app_comm_cons. cbn [lstrip forallb].
  destruct (isspace c); [exact IH|reflexivity].
Qed.

Lemma forallb_rev (f : ascii -> bool) (l : list ascii) :
  forallb f (rev l) = forallb f l.
Proof.
  induction l as [|c l IH]; [reflexivity|].
  cbn [rev forallb]. rewrite forallb_app, IH. cbn [forallb].
  rewrite andb_true_r. apply andb_comm.
Qed.

Lemma rstrip_app_blank (l ws : list ascii) :
  forallb isspace ws = true -> rstrip (l ++ ws) = rstrip l.
Proof.
  intros H. unfold rstrip. rewrite List.rev_app_distr.
  now rewrite lstrip_blank_app by now rewrite forallb_rev.
Qed.

Lemma strip_padding (pre s post : list ascii) :
  forallb isspace pre = true -> forallb isspace post = true ->
  rstrip (lstrip (pre ++ s ++ post)) = rstrip (lstrip s).
Proof.
  intros Hpre Hpost. rewrite lstrip_blank_app by exact Hpre.
  rewrite lstrip_app. destruct (forallb isspace s) eqn:Hs.
  - now rewrite (lstrip_blank _ Hpost), (lstrip_blank _ Hs).
  - now apply rstrip_app_blank.
Qed.

(** Taking the line ends out and stripping can be done in either order. *)
Lemma replace_newline_strip (t : string) :
  replace_newline (strip t) = strip (replace_newline t).
Proof.
  unfold replace_newline, strip.
  rewrite !list_ascii_of_string_of_list_ascii.
  fold keep. now rewrite lstrip_filter, rstrip_filter.
Qed.

Lemma replace_newline_append (a b : string) :
  replace_newline (a +:+ b)
  = replace_newline a +:+ replace_newline b.
Proof.
  unfold replace_newline. rewrite list_ascii_of_append, List.filter_app.
  generalize (List.filter (fun c => negb (Ascii.eqb c newline))
                          (list_ascii_of_string a)) as x.
  generalize (List.filter (fun c => negb (Ascii.eqb c newline))
                          (list_ascii_of_string b)) as y.
  intros y x. induction x as [|c x IH]; [reflexivity|].
  simpl. rewrite append_cons. now rewrite IH.
Qed.

End CellText.

(** A line end anywhere in the text of a market-cap cell changes nothing:
    the text with a line end put in at any place gives the same market cap
    as the text without it. *)
Theorem market_cap_ignores_newlines (a b : string) :
  parse_market_cap (a +:+ nl +:+ b) = parse_market_cap (a +:+ b).
Proof.
  unfold parse_market_cap. rewrite !replace_newline_strip.
  rewrite !replace_newline_append.
  change (replace_newline nl) with "". reflexivity.
Qed.

(** White space around the text of a cell changes nothing: the padded text
    gives the same name and the same market cap as the text itself. *)
Theorem cell_padding_ignored (pre s post : string) :
  blank pre = true -> blank post = true ->
  strip (pre +:+ s +:+ post) = strip s
  /\ parse_market_cap (pre +:+ s +:+ post) = parse_market_cap s.
Proof.
  intros Hpre Hpost.
  assert (strip (pre +:+ s +:+ post) = strip s) as Hstrip.
  { unfold strip. rewrite !list_ascii_of_append.
    now rewrite strip_padding. }
  split; [exact Hstrip|]. unfold parse_market_cap. now rewrite Hstrip.
Qed.

Lemma cell_padding_ignored_witness :
  parse_market_cap ("  " +:+ "100.0" +:+ (" " +:+ nl))
  = PyFloat (F64.of_Z 100).
Proof.
  destruct (cell_padding_ignored "  " "100.0" (" " +:+ nl)) as [_ ->];
    [reflexivity..|].
  vm_compute. reflexivity.
Defined.

(** ** More on [transform] *)

Lemma convert_cells_raises cells (d : gmap string object) currency e :
  convert_cells cells d currency = Raise e ->
  e = KeyError currency \/ e = TypeError.
Proof.
  induction cells as [|x cells IH]; [discriminate|].
  cbn [convert_cells]. unfold dict_getitem.
  destruct (d !! currency) as [rate|]; [|intros [= <-]; auto].
  rewrite bind_OK.
  destruct (py_mul x rate) as [product|e'] eqn:Hmul.
  - rewrite bind_OK. destruct (convert_cells cells d currency); [discriminate|].
    intros [= <-]. auto.
  - intros [= <-]. right.
    destruct x, rate; simpl in Hmul; congruence.
Qed.

(** The comprehension returns floats, and only on float cells. *)
Lemma convert_cells_OK_floats cells (d : gmap string object) currency out :
  convert_cells cells d currency = OK out ->
  forallb is_float cells = true /\ forallb is_float out = true
  /\ length out = length cells.
Proof.
  revert out. induction cells as [|x cells IH]; intros out.
  - intros [= <-]. auto.
  - cbn [convert_cells]. intros H.
    apply bind_OK_inv in H. destruct H as (rate & _ & H).
    apply bind_OK_inv in H. destruct H as (product & Hmul & H).
    apply bind_OK_inv in H. destruct H as (rest & Hrest & H).
    injection H as <-. destruct (IH _ Hrest) as (Hc & Ho & Hl).
    destruct x; try discriminate.
    cbn [forallb is_float length]. rewrite Hc, Ho, Hl. auto.
Qed.

(** Once the rates are read (lines 73-74 have returned), what is left of
    [transform] can raise two exceptions and no other: the KeyError of a key
    it looks up and does not find (MC_USD_Billion when the table has no
    such column, or the first of GBP, EUR and INR that the rates lack) and
    the TypeError of a product that is not of two floats. *)
Theorem transform_failures (df : DataFrame) (fs : files) csv_path d e :
  read_exchange_rate_dict fs csv_path = OK d ->
  transform df fs csv_path = Raise e ->
  e = TypeError
  \/ (e = KeyError "MC_USD_Billion"
      /\ existsb (labelled "MC_USD_Billion") df = false)
  \/ (exists currency,
         In currency ["GBP"; "EUR"; "INR"]
         /\ d !! currency = None /\ e = KeyError currency).
Proof.
  intros Hread. unfold transform. rewrite Hread, bind_OK.
  assert (forall currency cells e0,
             In currency ["GBP"; "EUR"; "INR"] ->
             convert_cells cells d currency = Raise e0 ->
             e0 = TypeError
             \/ (e0 = KeyError "MC_USD_Billion"
                 /\ existsb (labelled "MC_USD_Billion") df = false)
             \/ (exists currency,
                    In currency ["GBP"; "EUR"; "INR"]
                    /\ d !! currency = None /\ e0 = KeyError currency))
    as Hcells.
  { intros currency cells e0 Hin H0.
    destruct (d !! currency) as [rate|] eqn:Hrate.
    - destruct (convert_cells_present cells d currency rate Hrate)
        as [[out Hout]|Hraise]; [congruence|].
      left. congruence.
    - destruct (convert_cells_raises _ _ _ _ H0) as [-> | ->]; [|now left].
      right; right. eauto. }
  unfold convert.
  destruct (iter_getitem df "MC_USD_Billion") as [cells|e0] eqn:Hcol.
  2: { rewrite !bind_Raise. intros [= <-]. unfold iter_getitem in Hcol.
       destruct (List.filter (labelled "MC_USD_Billion") df)
         as [|[l c] [|col cols]] eqn:Hf; try discriminate.
       injection Hcol as <-. right; left. split; [reflexivity|].
       apply not_true_is_false. intros Hex.
       apply existsb_exists in Hex. destruct Hex as (col & Hin & Hl).
       assert (In col (List.filter (labelled "MC_USD_Billion") df)) as Hin'
           by (apply filter_In; auto).
       now rewrite Hf in Hin'. }
  rewrite bind_OK.
  destruct (convert_cells cells d "GBP") as [gbp|e1] eqn:Hg.
  2: { rewrite bind_Raise. intros [= <-].
       apply (Hcells "GBP" cells); [cbn; tauto|exact Hg]. }
  rewrite bind_OK, iter_getitem_setitem_ne, Hcol, bind_OK by discriminate.
  destruct (convert_cells cells d "EUR") as [eur|e1] eqn:He.
  2: { rewrite bind_Raise. intros [= <-].
       apply (Hcells "EUR" cells); [cbn; tauto|exact He]. }
  rewrite bind_OK, !iter_getitem_setitem_ne, Hcol, bind_OK by discriminate.
  destruct (convert_cells cells d "INR") as [inr|e1] eqn:Hi.
  2: { rewrite bind_Raise. intros [= <-].
       apply (Hcells "INR" cells); [cbn; tauto|exact Hi]. }
  discriminate.
Qed.

Lemma transform_failures_witness :
  exists currency,
    In currency ["GBP"; "EUR"; "INR"]
    /\ transform scenario_table files_without_GBP exchange_rate_csv_path
       = Raise (KeyError currency).
Proof.
  destruct (transform_failures
              scenario_table files_without_GBP exchange_rate_csv_path
              (dict_of_pairs (combine [PyStr "EUR"; PyStr "INR"]
                                      [PyFloat (F64.of_decimal false 93 (-2));
                                       PyFloat (F64.of_decimal false 8295 (-2))]))
              (KeyError "GBP"))
    as [H|[[H _]|(currency & Hin & _ & H)]];
    [reflexivity|vm_compute; reflexivity|discriminate|discriminate|].
  exists currency. split; [exact Hin|]. rewrite <- H. vm_compute. reflexivity.
Defined.

(** When [transform] returns, the market caps it read were floats, and each
    of the three derived columns holds floats only, one for each record:
    no derived cell is ever [None]. *)
Theorem transform_success_floats (df : DataFrame) (fs : files) csv_path df' :
  transform df fs csv_path = OK df' ->
  exists cells gbp eur inr,
    iter_getitem df "MC_USD_Billion" = OK cells
    /\ forallb is_float cells = true
    /\ holds "MC_GBP_Billion" gbp df' /\ holds "MC_EUR_Billion" eur df'
    /\ holds "MC_INR_Billion" inr df'
    /\ forallb is_float (gbp ++ eur ++ inr) = true
    /\ length gbp = length cells /\ length eur = length cells
    /\ length inr = length cells.
Proof.
  intros H.
  destruct (transform_OK_inv _ _ _ _ H)
    as (d & cells & gbp & eur & inr & Hd & Hc & Hg & He & Hi & ->).
  destruct (convert_cells_OK_floats _ _ _ _ Hg) as (Hcells & Hgf & Hgl).
  destruct (convert_cells_OK_floats _ _ _ _ He) as (_ & Hef & Hel).
  destruct (convert_cells_OK_floats _ _ _ _ Hi) as (_ & Hif & Hil).
  exists cells, gbp, eur, inr.
  split; [exact Hc|]. split; [exact Hcells|].
  split; [do 2 (apply holds_setitem_ne; [discriminate|]); apply holds_setitem|].
  split; [apply holds_setitem_ne; [discriminate|]; apply holds_setitem|].
  split; [apply holds_setitem|].
  rewrite !forallb_app, Hgf, Hef, Hif. auto.
Qed.

Lemma transform_success_floats_witness :
  exists gbp,
    holds "MC_GBP_Billion" gbp scenario_result
    /\ forallb is_float gbp = true /\ length gbp = 1%nat.
Proof.
  destruct (transform_success_floats
              scenario_table scenario_files exchange_rate_csv_path
              scenario_result)
    as (cells & gbp & eur & inr & Hc & _ & Hg & _ & _ & Hf & Hl & _);
    [vm_compute; reflexivity|].
  exists gbp. split; [exact Hg|].
  rewrite forallb_app in Hf. apply andb_true_iff in Hf.
  split; [tauto|]. rewrite Hl.
  vm_compute in Hc. now injection Hc as <-.
Defined.

Lemma convert_cells_ext cells (d1 d2 : gmap string object) currency :
  d1 !! currency = d2 !! currency ->
  convert_cells cells d1 currency = convert_cells cells d2 currency.
Proof.
  intros H. induction cells as [|x cells IH]; [reflexivity|].
  cbn [convert_cells]. unfold dict_getitem. now rewrite H, IH.
Qed.

(** Of the rate file, [transform] uses the rates of GBP, EUR and INR and
    nothing else: two rate files that agree on these three give the same
    result, table or exception, on every table. *)
Theorem transform_uses_three_rates
        (df : DataFrame) (fs1 fs2 : files) path1 path2 d1 d2 :
  read_exchange_rate_dict fs1 path1 = OK d1 ->
  read_exchange_rate_dict fs2 path2 = OK d2 ->
  d1 !! "GBP" = d2 !! "GBP" ->
  d1 !! "EUR" = d2 !! "EUR" ->
  d1 !! "INR" = d2 !! "INR" ->
  transform df fs1 path1 = transform df fs2 path2.
Proof.
  intros H1 H2 Hg He Hi. unfold transform, convert.
  rewrite H1, H2, !bind_OK.
  destruct (iter_getitem df "MC_USD_Billion") as [cells|e]; [|reflexivity].
  rewrite !bind_OK, (convert_cells_ext cells d1 d2 "GBP" Hg).
  destruct (convert_cells cells d2 "GBP") as [gbp|e]; [|reflexivity].
  rewrite !bind_OK.
  destruct (iter_getitem _ "MC_USD_Billion") as [cells'|e]; [|reflexivity].
  rewrite !bind_OK, (convert_cells_ext cells' d1 d2 "EUR" He).
  destruct (convert_cells cells' d2 "EUR") as [eur|e]; [|reflexivity].
  rewrite !bind_OK.
  destruct (iter_getitem _ "MC_USD_Billion") as [cells''|e]; [|reflexivity].
  rewrite !bind_OK, (convert_cells_ext cells'' d1 d2 "INR" Hi).
  reflexivity.
Qed.

Lemma transform_uses_three_rates_witness :
  transform scenario_table scenario_files exchange_rate_csv_path
  = transform scenario_table ({[ "rates.csv" := rates_with_more ]} : files)
              "rates.csv".
Proof.
  eapply transform_uses_three_rates;
    [reflexivity|reflexivity|vm_compute; reflexivity..].
Defined.

Lemma dict_of_pairs_later (later : list (object * object)) key
      (d : gmap string object) :
  ~ In (PyStr key) (map fst later) ->
  fold_left (fun d kv => match fst kv with
                         | PyStr k => <[k := snd kv]> d
                         | _ => d
                         end) later d !! key
  = d !! key.
Proof.
  revert d. induction later as [|[k v] later IH]; intros d H; [reflexivity|].
  cbn [fold_left fst snd]. rewrite IH by (intros Hin; apply H; now right).
  destruct k as [|k|x]; try reflexivity.
  apply lookup_insert_ne. intros ->. apply H. now left.
Qed.

Lemma combine_row (earlier later rates rates' : list object) key rate :
  length earlier = length rates ->
  combine (earlier ++ key :: later) (rates ++ rate :: rates')
  = combine earlier rates ++ (key, rate) :: combine later rates'.
Proof.
  revert rates.
  induction earlier as [|k earlier IH]; intros [|v rates] H; try discriminate.
  - reflexivity.
  - cbn [app combine]. f_equal. apply IH. now injection H.
Qed.

(** When the rate file names a currency in more than one row, the rate of
    its last row is the one [transform] reads. *)
Theorem rate_last_row_wins (fs : files) csv_path
        (earlier later : list object) (rates rates' : list object)
        currency rate :
  fs !! csv_path
  = Some [("Currency", earlier ++ PyStr currency :: later);
          ("Rates", rates ++ rate :: rates')] ->
  length earlier = length rates ->
  ~ In (PyStr currency) later ->
  exists d, read_exchange_rate_dict fs csv_path = OK d
            /\ d !! currency = Some rate.
Proof.
  intros Hfile Hlen Hlater.
  unfold read_exchange_rate_dict, read_csv. rewrite Hfile, bind_OK.
  eexists. split; [reflexivity|].
  cbn [fst snd]. rewrite combine_row by exact Hlen.
  unfold dict_of_pairs. rewrite fold_left_app.
  cbn [fold_left fst snd].
  rewrite dict_of_pairs_later.
  - apply lookup_insert_eq.
  - intros Hin. apply Hlater. apply in_map_iff in Hin.
    destruct Hin as ([k v] & Hk & Hin). cbn in Hk. subst k.
    now apply in_combine_l in Hin.
Qed.

Lemma rate_last_row_wins_witness :
  exists d,
    read_exchange_rate_dict ({[ "rates.csv" := rates_with_more ]} : files)
                            "rates.csv" = OK d
    /\ d !! "GBP" = Some (PyFloat (F64.of_decimal false 8 (-1))).
Proof.
  apply (rate_last_row_wins
           _ _ [PyStr "USD"; PyStr "GBP"; PyStr "INR"; PyStr "EUR"] []
           [PyFloat (F64.of_Z 1); PyFloat (F64.of_decimal false 5 (-1));
            PyFloat (F64.of_decimal false 8295 (-2));
            PyFloat (F64.of_decimal false 93 (-2))] []);
    [reflexivity|reflexivity|intros []].
Defined.

(** ** The run *)

Lemma io_bind_eq {A B} (m : IO A) (k : A -> IO B) (w : world) :
  (m ≫= k) w = match m w with
               | (OK a, w') => k a w'
               | (Raise e, w') => (Raise e, w')
               end.
Proof. reflexivity. Qed.

Lemma log_progress_first clock message tf csv dbs con n :
  log_progress clock message (World tf csv dbs con n)
  = (OK tt,
     World (<[log_file := log_after clock (default "" (tf !! log_file)) n 0
                          +:+ log_line (clock n) message]> tf)
           csv dbs con (S n)).
Proof.
  unfold log_after. cbn [firstn log_lines]. rewrite append_nil_r. reflexivity.
Qed.

Lemma log_progress_next clock message text tf csv dbs con n :
  log_progress clock message (World (<[log_file := text]> tf) csv dbs con n)
  = (OK tt,
     World (<[log_file := text +:+ log_line (clock n) message]> tf)
           csv dbs con (S n)).
Proof.
  unfold log_progress, datetime_now, append_text, log_line.
  rewrite io_bind_eq. cbn [text_files csv_files databases console clock_reads].
  now rewrite lookup_insert_eq, insert_insert_eq.
Qed.

Lemma log_after_S clock old start n message :
  nth_error stage_messages n = Some message ->
  log_after clock old start n +:+ log_line (clock (n + start)%nat) message
  = log_after clock old start (S n).
Proof.
  unfold log_after. rewrite append_assoc. intros H. f_equal.
  revert start n H. generalize stage_messages.
  induction l as [|m l IH]; intros start [|n] H; try discriminate.
  - injection H as ->. cbn [firstn log_lines Nat.add].
    now rewrite append_nil_l, append_nil_r.
  - cbn [firstn log_lines nth_error] in *. rewrite append_assoc. f_equal.
    rewrite <- (IH (S start) n H). do 3 f_equal. lia.
Qed.

(** The three steps of [run_query] on a database that the connection
    holds. *)
Lemma run_query_eq read_sql query conn tf csv dbs con n :
  run_query read_sql query conn (World tf csv dbs con n)
  = match read_sql query (default ∅ (dbs !! conn)) with
    | (OK output, db') =>
        (OK tt,
         World tf csv (<[conn := db']> dbs) (con ++ query_report query output) n)
    | (Raise e, db') =>
        (Raise e,
         World tf csv (<[conn := db']> dbs)
               (con ++ [Line ("Query: " +:+ query)]) n)
    end.
Proof.
  unfold run_query. rewrite io_bind_eq. unfold print at 1.
  cbn [text_files csv_files databases console clock_reads].
  rewrite io_bind_eq. unfold on_connection, database_of.
  cbn [text_files csv_files databases console clock_reads].
  destruct (read_sql query (default ∅ (dbs !! conn))) as [[output|e] db'];
    cbn [fst snd]; [|reflexivity].
  rewrite io_bind_eq. unfold print.
  cbn [text_files csv_files databases console clock_reads].
  unfold query_report. now rewrite <- !app_assoc.
Qed.

Lemma run_queries_eq read_sql queries conn tf csv dbs db con n :
  run_queries read_sql queries conn (World tf csv (<[conn := db]> dbs) con n)
  = (fst (fst (queries_on read_sql queries db)),
     World tf csv (<[conn := snd (queries_on read_sql queries db)]> dbs)
           (con ++ snd (fst (queries_on read_sql queries db))) n).
Proof.
  revert db con. induction queries as [|query rest IH]; intros db con.
  - cbn. now rewrite app_nil_r.
  - cbn [run_queries queries_on]. rewrite io_bind_eq, run_query_eq.
    rewrite lookup_insert_eq. cbn [default from_option]. unfold id.
    destruct (read_sql query db) as [[output|e] db'];
      rewrite insert_insert_eq; [|reflexivity].
    rewrite IH.
    destruct (queries_on read_sql rest db') as [[r items] db''].
    cbn [fst snd]. now rewrite app_assoc.
Qed.





(** The run, stage by stage. *)
Lemma main_eq clock read_sql (soup : node) (fs : files) tf csv dbs con r :
  main clock read_sql soup fs (World tf csv dbs con r)
  = let text k :=
        <[log_file := log_after clock (default "" (tf !! log_file)) r k]> tf in
    match extract soup table_attribs with
    | Raise e => (Raise e, World (text 1%nat) csv dbs con (1 + r))
    | OK df =>
        match transform df fs exchange_rate_csv_path with
        | Raise e => (Raise e, World (text 2%nat) csv dbs con (2 + r))
        | OK df' =>
            let csv' := <[output_csv_path := CsvFile df' false]> csv in
            match load_to_db df' (default ∅ (dbs !! db_name)) table_name with
            | (Raise e, db) =>
                (Raise e,
                 World (text 5%nat) csv' (<[db_name := db]> dbs) con (5 + r))
            | (OK _, db) =>
                let run := queries_on read_sql query_statements db in
                match fst (fst run) with
                | Raise e =>
                    (Raise e,
                     World (text 6%nat) csv' (<[db_name := snd run]> dbs)
                           (con ++ snd (fst run)) (6 + r))
                | OK _ =>
                    (OK tt,
                     World (text 8%nat) csv' (<[db_name := snd run]> dbs)
                           (con ++ snd (fst run)) (8 + r))
                end
            end
        end
    end.
Proof.
  cbv zeta. unfold main.
  rewrite io_bind_eq, log_progress_first. cbv beta iota.
  rewrite (log_after_S clock _ r 0 _ eq_refl).
  rewrite io_bind_eq. unfold lift at 1.
  destruct (extract soup table_attribs) as [df|e] eqn:He; [|reflexivity].
  rewrite io_bind_eq, log_progress_next. cbv beta iota.
  rewrite (log_after_S clock _ r 1 _ eq_refl).
  rewrite io_bind_eq. unfold lift at 1.
  destruct (transform df fs exchange_rate_csv_path) as [df'|e] eqn:Ht;
    [|reflexivity].
  rewrite io_bind_eq, log_progress_next. cbv beta iota.
  rewrite (log_after_S clock _ r 2 _ eq_refl).
  rewrite io_bind_eq. unfold load_to_csv, to_csv at 1.
  cbn [text_files csv_files databases console clock_reads].
  rewrite io_bind_eq, log_progress_next. cbv beta iota.
  rewrite (log_after_S clock _ r 3 _ eq_refl).
  rewrite io_bind_eq. unfold sqlite3_connect at 1, mret at 1, io_ret at 1.
  rewrite io_bind_eq, log_progress_next. cbv beta iota.
  rewrite (log_after_S clock _ r 4 _ eq_refl).
  rewrite io_bind_eq. unfold load_to_db_on at 1, on_connection, database_of.
  cbn [text_files csv_files databases console clock_reads].
  destruct (load_to_db df' (default ∅ (dbs !! db_name)) table_name)
    as [[[]|e] db]; cbn [fst snd]; [|reflexivity].
  rewrite io_bind_eq, log_progress_next. cbv beta iota.
  rewrite (log_after_S clock _ r 5 _ eq_refl).
  rewrite io_bind_eq, run_queries_eq.
  destruct (queries_on read_sql query_statements db) as [[[[]|e] items] db'];
    cbn [fst snd]; [|reflexivity].
  rewrite io_bind_eq, log_progress_next. cbv beta iota.
  rewrite (log_after_S clock _ r 6 _ eq_refl).
  rewrite log_progress_next.
  rewrite (log_after_S clock _ r 7 _ eq_refl).
  reflexivity.
Qed.

(** When [extract] raises, the run ends with its exception after the first
    line of the log: no file or table is written and nothing is printed. *)
Theorem main_stops_at_extract clock read_sql (soup : node) (fs : files) w e :
  extract soup table_attribs = Raise e ->
  main clock read_sql soup fs w = (Raise e, logged clock 1 stage_messages w).
Proof.
  intros He. destruct w as [tf csv dbs con r]. rewrite main_eq, He. reflexivity.
Qed.

Lemma main_stops_at_extract_witness :
  main sample_clock sample_read_sql two_cell_page scenario_files empty_world
  = (Raise IndexError, logged sample_clock 1 stage_messages empty_world).
Proof. apply main_stops_at_extract. vm_compute. reflexivity. Defined.

(** When [transform] raises, the run ends with its exception after the
    second line of the log: no file or table is written and nothing is
    printed. *)
Theorem main_stops_at_transform clock read_sql (soup : node) (fs : files) w
        df e :
  extract soup table_attribs = OK df ->
  transform df fs exchange_rate_csv_path = Raise e ->
  main clock read_sql soup fs w = (Raise e, logged clock 2 stage_messages w).
Proof.
  intros He Ht. destruct w as [tf csv dbs con r].
  rewrite main_eq, He, Ht. reflexivity.
Qed.

Lemma main_stops_at_transform_witness :
  main sample_clock sample_read_sql not_available_page scenario_files
       empty_world
  = (Raise TypeError, logged sample_clock 2 stage_messages empty_world).
Proof.
  apply (main_stops_at_transform
           _ _ _ _ _ [("Name", [PyStr "Bank A"]); ("MC_USD_Billion", [PyNone])]);
    vm_compute; reflexivity.
Defined.






